(** * Tutorial notebooks of qiskit-metal: syntax, execution model, properties

    The repository consists of two Jupyter notebooks,

    - [tutorials/4 Analysis/B. Advanced - Direct use of the renderers/
       4.19 Analyze a transmon using ElmerFEM.ipynb]
    - [tutorials/FlipChip_designtutorial.ipynb]

    A notebook is data: an ordered list of cells, each code cell holding a
    list of Python statements.  The development below

    - transcribes the code cells of both notebooks into the abstract syntax
      of Python ([Py], [Elmer], [FlipChip]), statement by statement;
    - gives that syntax an executable meaning ([Kernel]): the cells run top
      to bottom in one kernel, against an external world that answers the
      calls the code makes;
    - reads the traces of the runs ([Trace]) and proves what holds of every
      run of either notebook, in every world.

    What the model keeps and what it leaves out:

    - everything the notebooks call is outside the repository; a call is
      recorded with its callee and arguments, and its result is an opaque
      token.  The world decides only whether an interaction raises and
      what a truth test of an external object answers;
    - reading an attribute or an item of an external object is recorded in
      the value ([VAttr], [VItem]) and is not an interaction of its own;
    - arithmetic on floats or on external numbers is left uninterpreted
      ([VArith]): no property below depends on a numeric result;
    - the statements and expressions the notebooks do not use ([try],
      loops, assertions, conditional expressions) have their meaning too,
      so that their absence from a notebook is a fact about the notebook
      and not about the model; definitions, [with] and coroutines are
      outside the fragment the kernel runs ([Unsupported]). *)

From Stdlib Require Import String Ascii List ZArith Bool Arith Lia.
Import ListNotations.
Open Scope string_scope.
Open Scope list_scope.
Set Warnings "-register-all".

(** ** Abstract syntax

    Constructor names follow Python's [ast] module.  Comments are not part
    of the syntax tree; an IPython magic line ([%autoreload 2]) is a
    statement of its own. *)

Module Py.

Inductive constant : Type :=
| CNone
| CBool (b : bool)
| CInt (z : Z)
| CFloat (lit : string)          (* the literal as written: 0.404314 *)
| CStr (s : string).

Inductive unaryop : Type := Not | USub.
Inductive operator : Type := Add | Sub | Mult | Div | Mod.
Inductive boolop : Type := And | Or.

Inductive expr : Type :=
| Name (id : string)
| Constant (c : constant)
| Attribute (value : expr) (attr : string)
| Subscript (value : expr) (slice : expr)
| Call (func : expr) (args : list expr) (keywords : list (option string * expr))
| List_ (elts : list expr)
| Tuple (elts : list expr)
| Dict (items : list (expr * expr))
| UnaryOp (op : unaryop) (operand : expr)
| BinOp (left : expr) (op : operator) (right : expr)
| BoolOp (op : boolop) (left right : expr)
| IfExp (test body orelse : expr)
| Lambda (params : list string) (body : expr)
| Comprehension (elt : expr) (target : string) (iter : expr)
| Await (value : expr)
| Yield (value : expr).

Inductive stmt : Type :=
| Magic (line : string)
| Import (module : string) (asname : option string)
| ImportFrom (module : string) (names : list (string * option string))
| Assign (target : expr) (value : expr)
| Expr (value : expr)
| If (test : expr) (body orelse : list stmt)
| While (test : expr) (body : list stmt)
| For (target : string) (iter : expr) (body : list stmt)
| Try (body handler finalbody : list stmt)
| With (item : expr) (body : list stmt)
| FunctionDef (name : string) (params : list string) (body : list stmt)
| AsyncFunctionDef (name : string) (params : list string) (body : list stmt)
| AsyncFor (target : string) (iter : expr) (body : list stmt)
| AsyncWith (item : expr) (body : list stmt)
| ClassDef (name : string) (body : list stmt)
| Assert (test : expr)
| Raise (exc : expr)
| Return (value : expr)
| Pass.

Inductive cell : Type :=
| Markdown (id : string)
| Code (id : string) (source : list stmt).

Definition notebook : Type := list cell.

(** Abbreviations used by the transcriptions. *)
Definition str (s : string) : expr := Constant (CStr s).
Definition int (z : Z) : expr := Constant (CInt z).
Definition flt (lit : string) : expr := Constant (CFloat lit).
Definition true_ : expr := Constant (CBool true).
Definition false_ : expr := Constant (CBool false).
Definition kw (k : string) (e : expr) : option string * expr := (Some k, e).
Definition splat (e : expr) : option string * expr := (None, e).
Definition method (obj : expr) (m : string) (args : list expr)
  (kws : list (option string * expr)) : expr :=
  Call (Attribute obj m) args kws.
Definition from_ (module : string) (names : list string) : stmt :=
  ImportFrom module (map (fun n => (n, None)) names).

End Py.

Import Py.

(** ** The ElmerFEM notebook *)

Module Elmer.

(** [open_pins=[("Q1", "coupler1"), ("Q1", "coupler2"), ("Q1", "readout")]],
    written out four times in the notebook (lines 174, 240, 273, 346). *)
Definition open_pins_arg : option string * expr :=
  kw "open_pins"
     (List_ [Tuple [str "Q1"; str "coupler1"];
             Tuple [str "Q1"; str "coupler2"];
             Tuple [str "Q1"; str "readout"]]).

Definition junction : expr := Tuple [str "Q1_pad_top"; str "Q1_pad_bot"].

Definition q_opts (f_res : expr) : expr :=
  Call (Name "dict") []
       [kw "f_res" f_res;
        kw "Z0" (int 50);
        kw "vp" (BinOp (flt "0.404314") Mult (Name "c_light"))].

Definition cells : notebook :=
  [ Markdown "075bd937-5d0c-4e29-8351-faa413a5f7d1";
    Markdown "be3cbb43-2c24-4139-b690-1d56047a03c5";
    Code "28f8c32e-5341-49d6-b63f-0e16419b162c"
      [ Magic "%load_ext autoreload";
        Magic "%autoreload 2";
        from_ "qiskit_metal" ["MetalGUI"; "designs"];
        from_ "qiskit_metal.qlibrary.qubits.transmon_pocket_6" ["TransmonPocket6"];
        from_ "qiskit_metal.renderers.renderer_gmsh.gmsh_renderer" ["QGmshRenderer"];
        from_ "qiskit_metal.renderers.renderer_elmer.elmer_renderer" ["QElmerRenderer"];
        from_ "qiskit_metal.renderers.renderer_elmer.elmer_renderer"
              ["load_capacitance_matrix_from_file"] ];
    Code "a76242c0-3b42-4157-bbcb-a99b3c47937a"
      [ Magic "%metal_heading 1. Create a Transmon Qubit in Qiskit Metal" ];
    Code "31a7b793-64a5-44c6-9176-718f9b7c1c66"
      [ Assign (Name "design")
               (method (Name "designs") "MultiPlanar" [Dict []; true_] []);
        Assign (Name "gui") (Call (Name "MetalGUI") [Name "design"] []) ];
    Code "6fe517d6-d32f-417c-a8fa-33061c2e54c6"
      [ Assign (Name "conn_pads")
          (Call (Name "dict") []
            [kw "connection_pads"
              (Call (Name "dict") []
                [kw "readout"
                    (Call (Name "dict") []
                          [kw "loc_W" (int 0); kw "loc_H" (UnaryOp USub (int 1))]);
                 kw "coupler1"
                    (Call (Name "dict") []
                          [kw "loc_W" (UnaryOp USub (int 1)); kw "loc_H" (int 1)]);
                 kw "coupler2"
                    (Call (Name "dict") []
                          [kw "loc_W" (int 1); kw "loc_H" (int 1)])])]);
        Assign (Name "q1")
          (Call (Name "TransmonPocket6") [Name "design"; str "Q1"]
                [kw "options" (Call (Name "dict") [] [splat (Name "conn_pads")])]);
        Expr (method (Name "gui") "rebuild" [] []);
        Expr (method (Name "gui") "autoscale" [] []) ];
    Code "d97e061c-fbcc-4419-a30c-8854b8c63444"
      [ Magic "%metal_heading 2. Rendering and meshing your design in the `QGmshRenderer`" ];
    Markdown "2f118489-71a8-494f-8c1b-b6cc837382c3";
    Code "713202e1-dedc-469d-8dc3-9fe99496e42e"
      [ Assign (Name "gmsh_renderer") (Call (Name "QGmshRenderer") [Name "design"] []);
        Expr (method (Name "gmsh_renderer") "render_design" []
                     [open_pins_arg; kw "mesh_geoms" false_]) ];
    Code "eef5a352-24f3-4257-968f-be197eeba30d"
      [ Expr (method (Name "gmsh_renderer") "launch_gui" [] []) ];
    Markdown "cea57dd6-816f-4649-a77c-e9b774dcc153";
    Code "545d393c-8d57-4914-9dbc-92e8a0f32b0e"
      [ Expr (method (Name "gmsh_renderer") "add_mesh" []
                     [kw "dim" (int 3); kw "intelli_mesh" false_]);
        Expr (method (Name "gmsh_renderer") "launch_gui" [] []) ];
    Markdown "6347235c-d319-4c61-a981-7e4005b25d15";
    Code "b851f19f-e8d0-479e-b0ae-056fa8a47e9f"
      [ Assign (Attribute (Attribute (Attribute (Name "gmsh_renderer") "options") "mesh")
                          "min_size") (str "5um");
        Assign (Attribute (Attribute (Attribute (Name "gmsh_renderer") "options") "mesh")
                          "max_size") (str "20um");
        Expr (method (Name "gmsh_renderer") "render_design" []
                     [open_pins_arg; kw "mesh_geoms" false_]);
        Expr (method (Name "gmsh_renderer") "add_mesh" [] [kw "intelli_mesh" false_]);
        Expr (method (Name "gmsh_renderer") "launch_gui" [] []) ];
    Markdown "44bc0221-43d2-4551-b69d-4ab4f3f5b416";
    Code "4b02fbf9-2717-45b8-9293-3bd1121862f9"
      [ Assign (Attribute (Attribute (Attribute (Name "gmsh_renderer") "options") "mesh")
                          "min_size") (str "5um");
        Assign (Attribute (Attribute (Attribute (Name "gmsh_renderer") "options") "mesh")
                          "max_size") (str "50um");
        Expr (method (Name "gmsh_renderer") "render_design" []
                     [open_pins_arg; kw "mesh_geoms" true_]);
        Expr (method (Name "gmsh_renderer") "launch_gui" [] []) ];
    Markdown "f441adcc-510f-4c8a-8516-1caf7dcb9166";
    Code "af6556de-1546-47b5-8f26-9227af19ff86"
      [ Expr (method (Name "gmsh_renderer") "export_mesh" [str "test.msh"] []) ];
    Code "3672846f-b035-4eab-80a9-3c199eb4fd7c"
      [ Expr (method (Name "gmsh_renderer") "close" [] []) ];
    Code "88883f88-342e-449c-a1ce-c253a28c0145"
      [ Magic "%metal_heading 3. Rendering your design in `QElmerRenderer` (uses `QGmshRenderer`)" ];
    Code "8c2f7a6a-f6ed-4892-96c3-a62f866ef37c"
      [ Assign (Name "elmer_renderer") (Call (Name "QElmerRenderer") [Name "design"] []);
        Assign (Attribute (Attribute (Attribute (Attribute (Name "elmer_renderer") "gmsh")
                                                "options") "mesh") "min_size")
               (str "5um");
        Assign (Attribute (Attribute (Attribute (Attribute (Name "elmer_renderer") "gmsh")
                                                "options") "mesh") "max_size")
               (str "50um") ];
    Code "e7c297c2-be7e-495b-b98a-4062cab91be0"
      [ Expr (method (Name "elmer_renderer") "render_design" []
                     [open_pins_arg; kw "skip_junctions" true_]) ];
    Code "43145408-a90f-4e75-921d-ca8eafd5ea7e"
      [ Expr (method (Name "elmer_renderer") "launch_gmsh_gui" [] []) ];
    Code "ab7e7c7a-9207-4943-bf0f-1d183a8d007c"
      [ Expr (method (Name "elmer_renderer") "export_mesh" [] []) ];
    Code "5cc8b22f-f281-45c3-a53a-f2a7c9a29fed"
      [ Expr (method (Name "elmer_renderer") "add_solution_setup" [str "capacitance"] []) ];
    Code "020dc57e-d668-4d7b-b8fc-62fcceb6468d"
      [ Expr (method (Name "elmer_renderer") "run" [str "capacitance"] []) ];
    Code "b250b918-1cd7-429d-b015-92b114bf2594"
      [ Expr (Attribute (Name "elmer_renderer") "capacitance_matrix") ];
    Code "07625769-38c4-4be7-9c64-9e4e7b993506"
      [ Expr (method (Name "elmer_renderer") "display_post_processing_data" [] []) ];
    Code "ca5cf807-4323-48d8-b6cd-f5e38f3b24d3"
      [ Expr (method (Name "elmer_renderer") "save_capacitance_matrix"
                     [str "cap_matrix.txt"] []);
        Expr (method (Name "elmer_renderer") "close" [] []) ];
    Code "b20674ae-918f-4aa7-b4f7-1a337ae714a5"
      [ Magic "%metal_heading 4. Perform LOM 2.0 Analysis" ];
    Code "603f8d95-ac34-40e0-9574-53d0f6cde2b8"
      [ Import "numpy" (Some "np");
        from_ "qiskit_metal.analyses.quantization.lom_core_analysis"
              ["CompositeSystem"; "Cell"; "Subsystem"];
        ImportFrom "scipy.constants" [("speed_of_light", Some "c_light")];
        Import "matplotlib.pyplot" (Some "plt");
        Magic "%matplotlib inline" ];
    Code "cf3df357-f1fe-4bd0-9510-02fd7e2a55bf"
      [ Assign (Name "cap_matrix")
               (Call (Name "load_capacitance_matrix_from_file")
                     [str "cap_matrix.txt"] []) ];
    Code "9705e531-ef68-4b6b-bbc6-6a8b69ba0a12"
      [ Assign (Name "opt1")
          (Call (Name "dict") []
            [kw "node_rename"
                (Dict [(str "Q1_coupler1_connector_pad", str "coupler1");
                       (str "Q1_coupler2_connector_pad", str "coupler2");
                       (str "Q1_readout_connector_pad", str "readout")]);
             kw "cap_mat" (Name "cap_matrix");
             kw "ind_dict" (Dict [(junction, int 12)]);
             kw "jj_dict" (Dict [(junction, str "j1")]);
             kw "cj_dict" (Dict [(junction, int 2)])]);
        Assign (Name "cell_1") (Call (Name "Cell") [Name "opt1"] []) ];
    Code "d5c8c296-13f9-4ec9-8daf-96f2f882b923"
      [ Assign (Name "transmon")
          (Call (Name "Subsystem") []
                [kw "name" (str "transmon1_sys"); kw "sys_type" (str "TRANSMON");
                 kw "nodes" (List_ [str "j1"])]);
        Assign (Name "q_opts") (q_opts (flt "7.4"));
        Assign (Name "coup1")
          (Call (Name "Subsystem") []
                [kw "name" (str "coup1_sys"); kw "sys_type" (str "TL_RESONATOR");
                 kw "nodes" (List_ [str "coupler1"]); kw "q_opts" (Name "q_opts")]);
        Assign (Name "q_opts") (q_opts (flt "7.2"));
        Assign (Name "coup2")
          (Call (Name "Subsystem") []
                [kw "name" (str "coup2_sys"); kw "sys_type" (str "TL_RESONATOR");
                 kw "nodes" (List_ [str "coupler2"]); kw "q_opts" (Name "q_opts")]);
        Assign (Name "q_opts") (q_opts (int 7));
        Assign (Name "readout")
          (Call (Name "Subsystem") []
                [kw "name" (str "readout_sys"); kw "sys_type" (str "TL_RESONATOR");
                 kw "nodes" (List_ [str "readout"]); kw "q_opts" (Name "q_opts")]) ];
    Code "4f44c894-aa2b-4632-b513-da391f101b93"
      [ Assign (Name "composite_sys")
          (Call (Name "CompositeSystem") []
                [kw "subsystems" (List_ [Name "transmon"; Name "coup1";
                                         Name "coup2"; Name "readout"]);
                 kw "cells" (List_ [Name "cell_1"]);
                 kw "grd_node" (str "ground_plane");
                 kw "nodes_force_keep" (List_ [str "coupler1"; str "coupler2";
                                               str "readout"])]) ];
    Code "86f39d01-c88f-4300-987f-0384703daf61"
      [ Assign (Name "cg") (method (Name "composite_sys") "circuitGraph" [] []);
        Expr (Call (Name "print") [Name "cg"] []) ];
    Code "19fee4da-5659-4b3b-ad29-182565ee8933"
      [ Assign (Name "hilbertspace")
               (method (Name "composite_sys") "create_hilbertspace" [] []);
        Expr (Call (Name "print") [Name "hilbertspace"] []) ];
    Code "c18d596f-1778-4bf1-852c-6a3c7c8dc927"
      [ Assign (Name "hilbertspace")
               (method (Name "composite_sys") "add_interaction" [] []);
        Expr (method (Name "hilbertspace") "hamiltonian" [] []) ];
    Code "b4c2cdfb-6ede-46eb-bbaf-c19f75b9a5d5"
      [ Assign (Name "hamiltonian_results")
               (method (Name "composite_sys") "hamiltonian_results"
                       [Name "hilbertspace"] [kw "evals_count" (int 30)]) ];
    Code "8c01e33b-c8fa-464a-bd02-fa8e87f48b5a"
      [ Assign (Name "chi_df")
               (method (Subscript (Name "hamiltonian_results") (str "chi_in_MHz"))
                       "to_dataframe" [] []);
        Expr (Call (Name "print")
                   [str "Transmon frequency     :";
                    Subscript (Subscript (Name "hamiltonian_results") (str "fQ_in_Ghz"))
                              (str "transmon1_sys");
                    str "GHz"] []);
        Expr (Call (Name "print")
                   [str "Transmon Anharmonicity :";
                    Subscript (Subscript (Name "chi_df") (str "transmon1_sys"))
                              (str "transmon1_sys");
                    str "MHz"] []);
        Expr (Call (Name "print")
                   [str "Readou chi             :";
                    Subscript (Subscript (Name "chi_df") (str "readout_sys"))
                              (str "transmon1_sys");
                    str "MHz"] []) ];
    Code "afdfe557-8d48-4a18-85bf-923aa2b63c07"
      [ Expr (method (method (Name "composite_sys") "compute_gs" [] [])
                     "to_dataframe" [] []) ];
    Code "963212c4-b31f-48c0-ac56-0058e477b9e0"
      [ Expr (Attribute (Name "transmon") "h_params") ];
    Code "44627014-50d7-4f5c-b873-c7c438d6c6da"
      [ Expr (method (Attribute (Name "gui") "main_window") "close" [] []) ];
    Code "9c3428fa-7009-451d-9032-a54ecf888791" [] ].

End Elmer.

(** ** The flip-chip notebook *)

Module FlipChip.

Definition chip_size_z (chip : string) : expr :=
  Subscript (Subscript (Subscript (Attribute (Name "design") "chips") (str chip))
                       (str "size"))
            (str "center_z").

Definition sim_setup : expr :=
  Attribute (Attribute (Name "eig_fc") "sim") "setup".

Definition jj : expr :=
  Attribute (Attribute (Attribute (Name "eig_fc") "setup") "junctions") "jj".

(** The conditional of cell [6eb99015] (lines 263-275). *)
Definition add_material_call : stmt :=
  Expr (method (Name "defmanager") "AddMaterial"
         [List_
            [BinOp (str "NAME:%s") Mod (Name "newMaterial_name");
             str "CoordinateSystemType:="; str "Cartesian";
             str "BulkOrSurfaceType:="; int 1;
             List_ [str "NAME:PhysicsTypes";
                    str "set:="; List_ [str "Electromagnetic"]];
             str "permittivity:=";
             BinOp (str "%s") Mod (Name "newMaterial_permittivity");
             str "dielectric_loss_tangent:=";
             BinOp (str "%s") Mod (Name "newMaterial_losstangent")]]
         []).

Definition material_guard : stmt :=
  If (UnaryOp Not
        (method (Name "defmanager") "DoesMaterialExist" [Name "newMaterial_name"] []))
     [add_material_call]
     [].

Definition cells : notebook :=
  [ Markdown "f96003c3";
    Markdown "1ea0705e";
    Code "0d41a1db"
      [ Magic "%reload_ext autoreload";
        Magic "%autoreload 2" ];
    Code "1c02013c"
      [ Import "qiskit_metal" (Some "metal");
        from_ "qiskit_metal" ["designs"; "draw"];
        from_ "qiskit_metal" ["MetalGUI"; "Dict"; "Headings"];
        from_ "qiskit_metal.qlibrary.qubits.transmon_cross" ["TransmonCross"];
        from_ "qiskit_metal.qlibrary.resonators.readoutres_fc" ["ReadoutResFC"];
        Import "warnings" None;
        Expr (method (Name "warnings") "filterwarnings" [str "ignore"]
                     [kw "category" (Name "Warning")]) ];
    Code "88f78db4"
      [ Assign (Name "design") (method (Name "designs") "DesignFlipChip" [] []);
        Assign (Subscript (Attribute (Name "design") "metadata") (str "design_name"))
               (str "FlipChip_Device");
        Assign (Name "gui") (Call (Name "MetalGUI") [Name "design"] []);
        Assign (Attribute (Name "design") "overwrite_enabled") true_ ];
    Markdown "a689d06b";
    Code "1a4c6ad6"
      [ Expr (method (Name "design") "delete_all_components" [] []);
        Assign (Name "options_cpads")
          (Call (Name "Dict") []
                [kw "connector_type" (str "0");
                 kw "claw_length" (str "30um");
                 kw "ground_spacing" (str "5um");
                 kw "claw_width" (str "10um");
                 kw "claw_gap" (str "6um")]);
        Assign (Name "options")
          (Call (Name "Dict") []
                [kw "chip" (str "Q_chip");
                 kw "cross_width" (str "20um");
                 kw "cross_length" (str "150um");
                 kw "cross_gap" (str "20um");
                 kw "connection_pads"
                    (Call (Name "Dict") []
                       [kw "claw_west"
                           (Call (Name "Dict") []
                                 [kw "connector_location" (str "180");
                                  splat (Name "options_cpads")])])]);
        Assign (Name "q1_x") (str "0.0 mm");
        Assign (Name "q1_y") (str "0.0 mm");
        Assign (Name "q1")
          (Call (Name "TransmonCross") [Name "design"; str "Q1"]
                [kw "options"
                    (Call (Name "Dict") []
                          [kw "pos_x" (Name "q1_x"); kw "pos_y" (Name "q1_y");
                           splat (Name "options")])]);
        Expr (method (Name "gui") "rebuild" [] []);
        Expr (method (Name "gui") "autoscale" [] []) ];
    Code "ddbc50d8"
      [ Assign (Name "options")
          (Call (Name "Dict") []
                [kw "chip" (str "C_chip");
                 kw "readout_radius" (str "20 um");
                 kw "readout_cpw_width" (str "10 um");
                 kw "readout_cpw_gap" (str "10 um");
                 kw "readout_cpw_turnradius" (str "50 um");
                 kw "readout_l1" (str "600 um");
                 kw "readout_l2" (str "200 um");
                 kw "readout_l3" (str "300 um");
                 kw "readout_l4" (str "150 um");
                 kw "readout_l5" (str "550 um");
                 kw "arc_step" (str "5 um")]);
        Assign (Name "r1")
          (Call (Name "ReadoutResFC") [Name "design"; str "R1"]
                [kw "options"
                    (Call (Name "Dict") []
                          [kw "pos_x" (Name "q1_x"); kw "pos_y" (Name "q1_y");
                           splat (Name "options")])]);
        Expr (method (Name "gui") "rebuild" [] []);
        Expr (method (Name "gui") "autoscale" [] []) ];
    Markdown "17affa51";
    Markdown "1678915d";
    Code "b35cb7f9"
      [ Expr (Attribute (Name "design") "chips") ];
    Markdown "3d7929e4";
    Code "f566f85f"
      [ Expr (chip_size_z "C_chip") ];
    Code "9007cb94"
      [ Expr (chip_size_z "Q_chip") ];
    Markdown "a05eeba7";
    Code "dd6060f0"
      [ Assign (chip_size_z "Q_chip") (str "10 um");
        Expr (chip_size_z "Q_chip") ];
    Markdown "5f8e095c";
    Code "025e0bfa"
      [ Assign (Name "newMaterial_name") (str "Si_11.45");
        Assign (Name "newMaterial_permittivity") (str "11.45");
        Assign (Name "newMaterial_losstangent") (str "1e-7") ];
    Code "6eb99015"
      [ from_ "pyEPR" ["ansys"; "project_info"];
        Assign (Name "ans_prj") (method (Name "project_info") "ProjectInfo" [] []);
        Assign (Name "oProject")
               (Attribute (Attribute (Name "ans_prj") "project") "_project");
        Assign (Name "defmanager")
               (method (Name "oProject") "GetDefinitionManager" [] []);
        material_guard;
        Expr (method (Attribute (Name "ans_prj") "project") "release" [] []);
        Expr (method (Attribute (Name "ans_prj") "desktop") "release" [] []);
        Expr (method (Attribute (Name "ans_prj") "app") "release" [] []);
        Expr (method (Name "ansys") "release" [] []) ];
    Code "1b1af6d6"
      [ Assign (Subscript (Subscript (Attribute (Name "design") "chips") (str "C_chip"))
                          (str "material"))
               (Name "newMaterial_name");
        Assign (Subscript (Subscript (Attribute (Name "design") "chips") (str "Q_chip"))
                          (str "material"))
               (Name "newMaterial_name") ];
    Markdown "2493e788";
    Code "548873c3"
      [ from_ "qiskit_metal.analyses.quantization" ["EPRanalysis"];
        Assign (Name "eig_fc")
               (Call (Name "EPRanalysis") [Name "design"; str "hfss"] []);
        Expr sim_setup ];
    Code "ac123d75"
      [ Assign (Attribute sim_setup "max_passes") (int 20);
        Assign (Attribute (Attribute sim_setup "vars") "Lj") (str "10 nH");
        Assign (Attribute sim_setup "n_modes") (int 2);
        Assign (Attribute sim_setup "max_delta_f") (int 1);
        Assign (Attribute sim_setup "min_freq_ghz") (flt "1.5");
        Assign (Attribute jj "rect") (str "JJ_rect_Lj_Q1_rect_jj");
        Assign (Attribute jj "line") (str "JJ_Lj_Q1_rect_jj_");
        Expr sim_setup ];
    Markdown "32351948";
    Code "491db648"
      [ Expr (method (Attribute (Name "eig_fc") "sim") "run" []
                     [kw "name" (str "qubitres");
                      kw "components" (List_ [str "Q1"; str "R1"]);
                      kw "open_terminations" (List_ []);
                      kw "box_plus_buffer" true_]) ];
    Code "b973d2bc"
      [ Assign (Attribute (Attribute (Attribute (Name "eig_fc") "setup") "dissipatives")
                          "dielectrics_bulk")
               (List_ [str "Q_chip"; str "C_chip"]);
        Expr (method (Name "eig_fc") "run_epr" [] []) ];
    Code "6f56cc50"
      [ Expr (method (Attribute (Name "eig_fc") "sim") "close" [] []) ] ].

End FlipChip.

(** ** Queries on the syntax *)

Module Syntax.

Fixpoint subexprs (e : expr) : list expr :=
  e :: match e with
       | Name _ | Constant _ => []
       | Attribute v _ => subexprs v
       | Subscript v s => subexprs v ++ subexprs s
       | Call f args kws =>
           subexprs f ++ flat_map subexprs args
                      ++ flat_map (fun k => subexprs (snd k)) kws
       | List_ es | Tuple es => flat_map subexprs es
       | Dict items =>
           flat_map (fun kv => subexprs (fst kv) ++ subexprs (snd kv)) items
       | UnaryOp _ x => subexprs x
       | BinOp l _ r => subexprs l ++ subexprs r
       | BoolOp _ l r => subexprs l ++ subexprs r
       | IfExp t b o => subexprs t ++ subexprs b ++ subexprs o
       | Lambda _ b => subexprs b
       | Comprehension elt _ it => subexprs elt ++ subexprs it
       | Await v | Yield v => subexprs v
       end.

(** A statement together with every statement nested in it. *)
Fixpoint substmts (s : stmt) : list stmt :=
  s :: match s with
       | If _ b o => flat_map substmts b ++ flat_map substmts o
       | While _ b | For _ _ b | With _ b => flat_map substmts b
       | AsyncFor _ _ b | AsyncWith _ b => flat_map substmts b
       | Try b h f =>
           flat_map substmts b ++ flat_map substmts h ++ flat_map substmts f
       | FunctionDef _ _ b | AsyncFunctionDef _ _ b | ClassDef _ b =>
           flat_map substmts b
       | _ => []
       end.

(** The expressions a statement holds itself (not those of nested
    statements). *)
Definition stmt_exprs (s : stmt) : list expr :=
  match s with
  | Assign t v => [t; v]
  | Expr v | Assert v | Raise v | Return v => [v]
  | If t _ _ | While t _ => [t]
  | For _ it _ | AsyncFor _ it _ => [it]
  | With it _ | AsyncWith it _ => [it]
  | _ => []
  end.

Definition cell_source (c : cell) : list stmt :=
  match c with
  | Markdown _ => []
  | Code _ src => src
  end.

Definition nb_stmts (nb : notebook) : list stmt :=
  flat_map (fun c => flat_map substmts (cell_source c)) nb.

Definition nb_exprs (nb : notebook) : list expr :=
  flat_map (fun s => flat_map subexprs (stmt_exprs s)) (nb_stmts nb).

(** *** Kinds of statement and expression *)

Definition is_definition (s : stmt) : bool :=
  match s with
  | FunctionDef _ _ _ | AsyncFunctionDef _ _ _ | ClassDef _ _ => true
  | _ => false
  end.

Definition is_lambda (e : expr) : bool :=
  match e with Lambda _ _ => true | _ => false end.

Definition is_conditional (s : stmt) : bool :=
  match s with If _ _ _ => true | _ => false end.

Definition is_loop (s : stmt) : bool :=
  match s with
  | While _ _ | For _ _ _ | AsyncFor _ _ _ => true
  | _ => false
  end.

Definition is_try (s : stmt) : bool :=
  match s with Try _ _ _ => true | _ => false end.

(** Expressions that choose or repeat: conditional expression,
    short-circuit operator, comprehension. *)
Definition is_branching_expr (e : expr) : bool :=
  match e with
  | IfExp _ _ _ | BoolOp _ _ _ | Comprehension _ _ _ => true
  | _ => false
  end.

Definition is_check (s : stmt) : bool :=
  match s with Assert _ | Raise _ => true | _ => false end.




Definition mem (x : string) (l : list string) : bool :=
  existsb (String.eqb x) l.

End Syntax.

(** ** The kernel: values, the external world, execution

    Everything the notebooks compute with lives outside the repository.  An
    object obtained from outside is known to the kernel only by how it was
    obtained: the import that named it, the call that returned it, the
    attribute or item path that led to it.  Calls, imports, magics, stores
    into external objects and truth tests of external objects are
    interactions with the world; the world decides, interaction by
    interaction, whether it raises and, for a truth test, what it answers.
    The interactions of a run are numbered from 0 in the order they
    happen. *)

Module Kernel.

Inductive value : Type :=
| VNone
| VBool (b : bool)
| VInt (z : Z)
| VFloat (lit : string)
| VStr (s : string)
| VList (elts : list value)
| VTuple (elts : list value)
| VDict (items : list (value * value))
| VBuiltin (name : string)              (* a Python builtin: dict, print *)
| VModule (name : string)               (* import m *)
| VImported (module name : string)      (* from m import name *)
| VResult (n : nat)                     (* what interaction n returned *)
| VAttr (obj : value) (attr : string)   (* obj.attr, obj external *)
| VItem (obj : value) (key : value)     (* obj[key], obj external *)
| VArith (op : operator) (l r : value). (* arithmetic left uninterpreted *)

Definition operator_eqb (a b : operator) : bool :=
  match a, b with
  | Add, Add | Sub, Sub | Mult, Mult | Div, Div | Mod, Mod => true
  | _, _ => false
  end.

Fixpoint value_eqb (a b : value) {struct a} : bool :=
  match a, b with
  | VNone, VNone => true
  | VBool x, VBool y => Bool.eqb x y
  | VInt x, VInt y => Z.eqb x y
  | VFloat x, VFloat y => String.eqb x y
  | VStr x, VStr y => String.eqb x y
  | VList xs, VList ys | VTuple xs, VTuple ys =>
      (fix all2 (xs ys : list value) {struct xs} : bool :=
         match xs, ys with
         | [], [] => true
         | x :: xs', y :: ys' => value_eqb x y && all2 xs' ys'
         | _, _ => false
         end) xs ys
  | VDict xs, VDict ys =>
      (fix all2 (xs ys : list (value * value)) {struct xs} : bool :=
         match xs, ys with
         | [], [] => true
         | (k, v) :: xs', (k', v') :: ys' =>
             value_eqb k k' && value_eqb v v' && all2 xs' ys'
         | _, _ => false
         end) xs ys
  | VBuiltin x, VBuiltin y => String.eqb x y
  | VModule x, VModule y => String.eqb x y
  | VImported m x, VImported m' y => String.eqb m m' && String.eqb x y
  | VResult n, VResult m => Nat.eqb n m
  | VAttr o x, VAttr o' y => value_eqb o o' && String.eqb x y
  | VItem o k, VItem o' k' => value_eqb o o' && value_eqb k k'
  | VArith op l r, VArith op' l' r' =>
      operator_eqb op op' && value_eqb l l' && value_eqb r r'
  | _, _ => false
  end.

(** Objects that live outside the kernel. *)
Definition is_external (v : value) : bool :=
  match v with
  | VBuiltin _ | VModule _ | VImported _ _ | VResult _ | VAttr _ _ | VItem _ _ => true
  | _ => false
  end.

(** Operands of arithmetic that is not carried out here: floats and
    numbers held by external objects. *)
Definition is_numeric (v : value) : bool :=
  match v with
  | VInt _ | VFloat _ | VArith _ _ _
  | VImported _ _ | VResult _ | VAttr _ _ | VItem _ _ => true
  | _ => false
  end.

(** *** Interactions *)

Inductive action : Type :=
| AMagic (line : string)
| AImport (module : string) (names : list string)
| ACall (func : value) (args : list value) (keywords : list (option string * value))
| ATruth (v : value)
| ASetAttr (obj : value) (attr : string) (v : value)
| ASetItem (obj key v : value).

Inductive reply : Type :=
| Failed
| Returned
| Answered (b : bool).

Definition event : Type := action * reply.

(** The world: for the interaction numbered [n] (its position in the
    trace), whether it raises, and what a truth test answers. *)
Record world : Type := mkWorld {
  fails : nat -> bool;
  truth : nat -> bool
}.

(** A world in which nothing fails. *)
Definition calm (t : nat -> bool) : world :=
  {| fails := fun _ => false; truth := t |}.

(** *** Kernel state *)

(** A statement is located by the id of its cell and its position: [[i]]
    for the statement [i] of the cell, [[i; 0; j]] for statement [j] of
    the body of the compound statement [i], [[i; 1; j]] for its else-branch
    or handler, [[i; 2; j]] for a final block. *)
Definition loc : Type := string * list nat.

Record state : Type := mkState {
  env : list (string * value);
  events : list event;          (* newest first *)
  executed : list loc           (* newest first *)
}.

Definition init : state := {| env := []; events := []; executed := [] |}.

Inductive exn : Type :=
| ExternalFailure (n : nat)
| NameError (id : string)
| TypeError (what : string)
| LookupError
| AssertionError
| Raised (v : value).

Inductive outcome (A : Type) : Type :=
| Ok (a : A)
| Exn (e : exn)
| Unsupported (what : string)
| OutOfFuel.
Arguments Ok {A} a.
Arguments Exn {A} e.
Arguments Unsupported {A} what.
Arguments OutOfFuel {A}.

Definition M (A : Type) : Type := state -> outcome A * state.

Definition ret {A} (a : A) : M A := fun st => (Ok a, st).

Definition bind {A B} (m : M A) (k : A -> M B) : M B :=
  fun st =>
    match m st with
    | (Ok a, st') => k a st'
    | (Exn e, st') => (Exn e, st')
    | (Unsupported what, st') => (Unsupported what, st')
    | (OutOfFuel, st') => (OutOfFuel, st')
    end.

Notation "x <- m ;; k" := (bind m (fun x => k))
  (at level 100, m at next level, right associativity).
Notation "m ;;; k" := (bind m (fun _ => k))
  (at level 100, right associativity).

Definition raise {A} (e : exn) : M A := fun st => (Exn e, st).
Definition unsupported {A} (what : string) : M A :=
  fun st => (Unsupported what, st).
Definition out_of_fuel {A} : M A := fun st => (OutOfFuel, st).

(** [try]: an exception of the body is caught; running out of fuel or
    leaving the fragment is not an exception. *)
Definition catch {A} (m : M A) (h : M A) : M A :=
  fun st =>
    match m st with
    | (Exn _, st') => h st'
    | r => r
    end.

(** [finally]: the final block runs whatever the outcome of the body was,
    and the outcome of the body stands unless the final block has one of
    its own. *)
Definition finally {A} (m : M A) (f : M unit) : M A :=
  fun st =>
    match m st with
    | (OutOfFuel, st') => (OutOfFuel, st')
    | (Unsupported what, st') => (Unsupported what, st')
    | (o, st') =>
        match f st' with
        | (Ok _, st'') => (o, st'')
        | (Exn e, st'') => (Exn e, st'')
        | (Unsupported what, st'') => (Unsupported what, st'')
        | (OutOfFuel, st'') => (OutOfFuel, st'')
        end
    end.

Definition push (ev : event) (st : state) : state :=
  {| env := env st; events := ev :: events st; executed := executed st |}.

Definition interact (w : world) (a : action) : M nat :=
  fun st =>
    let n := length (events st) in
    if fails w n
    then (Exn (ExternalFailure n), push (a, Failed) st)
    else (Ok n, push (a, Returned) st).

Definition ask (w : world) (v : value) : M bool :=
  fun st =>
    let n := length (events st) in
    if fails w n
    then (Exn (ExternalFailure n), push (ATruth v, Failed) st)
    else (Ok (truth w n), push (ATruth v, Answered (truth w n)) st).

Definition visit (l : loc) : M unit :=
  fun st => (Ok tt, {| env := env st; events := events st;
                        executed := l :: executed st |}).

Fixpoint assoc_set (x : string) (v : value) (e : list (string * value))
  : list (string * value) :=
  match e with
  | [] => [(x, v)]
  | (y, u) :: e' => if String.eqb x y then (y, v) :: e' else (y, u) :: assoc_set x v e'
  end.

Fixpoint assoc_get (x : string) (e : list (string * value)) : option value :=
  match e with
  | [] => None
  | (y, u) :: e' => if String.eqb x y then Some u else assoc_get x e'
  end.

Definition set_var (x : string) (v : value) : M unit :=
  fun st => (Ok tt, {| env := assoc_set x v (env st); events := events st;
                        executed := executed st |}).

Definition builtins : list string :=
  ["dict"; "print"; "Warning"; "list"; "tuple"; "len"; "str"; "int"; "float";
   "range"; "open"; "Exception"].

Definition get_var (x : string) : M value :=
  fun st =>
    match assoc_get x (env st) with
    | Some v => (Ok v, st)
    | None => if Syntax.mem x builtins then (Ok (VBuiltin x), st)
              else (Exn (NameError x), st)
    end.

(** *** Python dictionaries: insertion-ordered, keys unique *)

Fixpoint dict_set (k v : value) (items : list (value * value))
  : list (value * value) :=
  match items with
  | [] => [(k, v)]
  | (k', v') :: r =>
      if value_eqb k k' then (k', v) :: r else (k', v') :: dict_set k v r
  end.

Fixpoint dict_get (k : value) (items : list (value * value)) : option value :=
  match items with
  | [] => None
  | (k', v') :: r => if value_eqb k k' then Some v' else dict_get k r
  end.

Definition dict_of (items : list (value * value)) : list (value * value) :=
  fold_left (fun d kv => dict_set (fst kv) (snd kv) d) items [].

(** [dict(k=v, ..., **d)] *)
Fixpoint dict_of_keywords (kws : list (option string * value))
  (acc : list (value * value)) : option (list (value * value)) :=
  match kws with
  | [] => Some acc
  | (Some k, v) :: r => dict_of_keywords r (dict_set (VStr k) v acc)
  | (None, VDict items) :: r =>
      dict_of_keywords r
        (fold_left (fun d kv => dict_set (fst kv) (snd kv) d) items acc)
  | (None, _) :: r => None
  end.

(** *** [fmt % arg] with a single [%s] *)

Definition is_percent (c : ascii) : bool := Ascii.eqb c "%"%char.

Fixpoint no_percent (s : string) : bool :=
  match s with
  | EmptyString => true
  | String c r => negb (is_percent c) && no_percent r
  end.

Fixpoint percent_s (fmt arg : string) : option string :=
  match fmt with
  | EmptyString => None
  | String c rest =>
      if is_percent c then
        match rest with
        | String c2 rest2 =>
            if Ascii.eqb c2 "s"%char && no_percent rest2
            then Some (String.append arg rest2) else None
        | EmptyString => None
        end
      else option_map (String c) (percent_s rest arg)
  end.

(** The package a dotted module name belongs to: [matplotlib] for
    [matplotlib.pyplot]. *)
Fixpoint top_package (m : string) : string :=
  match m with
  | EmptyString => EmptyString
  | String c r => if Ascii.eqb c "."%char then EmptyString
                  else String c (top_package r)
  end.

(** *** Expressions *)

Definition value_of_constant (c : constant) : value :=
  match c with
  | CNone => VNone
  | CBool b => VBool b
  | CInt z => VInt z
  | CFloat lit => VFloat lit
  | CStr s => VStr s
  end.

(** Truth of a value.  Kernel-side values follow Python's rules; modules
    and builtins are true; any other external object is asked. *)
Definition truthy (w : world) (v : value) : M bool :=
  match v with
  | VNone => ret false
  | VBool b => ret b
  | VInt z => ret (negb (Z.eqb z 0))
  | VStr s => ret (match s with EmptyString => false | _ => true end)
  | VList l | VTuple l => ret (match l with [] => false | _ => true end)
  | VDict l => ret (match l with [] => false | _ => true end)
  | VBuiltin _ | VModule _ => ret true
  | VImported _ _ | VResult _ | VAttr _ _ | VItem _ _ => ask w v
  | VFloat _ | VArith _ _ _ => unsupported "truth of a number not computed here"
  end.

Definition get_attr (v : value) (a : string) : M value :=
  if is_external v then ret (VAttr v a)
  else unsupported "attribute of a kernel-side value".

Definition get_item (v k : value) : M value :=
  match v with
  | VDict items =>
      match dict_get k items with
      | Some x => ret x
      | None => raise LookupError
      end
  | VList l | VTuple l =>
      match k with
      | VInt z =>
          if (0 <=? z)%Z then
            match nth_error l (Z.to_nat z) with
            | Some x => ret x
            | None => raise LookupError
            end
          else unsupported "negative index"
      | _ => unsupported "index that is not an integer"
      end
  | _ => if is_external v then ret (VItem v k)
         else raise (TypeError "not subscriptable")
  end.

Definition negate (v : value) : M value :=
  match v with
  | VInt z => ret (VInt (- z))
  | _ => if is_numeric v then ret (VArith Sub (VInt 0) v)
         else raise (TypeError "bad operand for unary -")
  end.

Definition binop (op : operator) (l r : value) : M value :=
  match l, r with
  | VStr a, VStr b =>
      match op with
      | Mod => match percent_s a b with
               | Some s => ret (VStr s)
               | None => unsupported "format string"
               end
      | Add => ret (VStr (String.append a b))
      | _ => raise (TypeError "unsupported operands")
      end
  | VStr _, _ =>
      match op with
      | Mod => unsupported "format argument that is not a string"
      | _ => raise (TypeError "unsupported operands")
      end
  | VInt a, VInt b =>
      match op with
      | Add => ret (VInt (a + b))
      | Sub => ret (VInt (a - b))
      | Mult => ret (VInt (a * b))
      | _ => ret (VArith op l r)
      end
  | _, _ =>
      if is_numeric l && is_numeric r then ret (VArith op l r)
      else unsupported "operands"
  end.

(** A call.  [dict] builds a dictionary in the kernel; [print] writes to
    the cell output and returns [None]; every other callee is external and
    its result is known as [VResult n], [n] the number of the call. *)
Definition call (w : world) (f : value) (args : list value)
  (kws : list (option string * value)) : M value :=
  match f with
  | VBuiltin name =>
      if String.eqb name "dict" then
        match args with
        | [] => match dict_of_keywords kws [] with
                | Some items => ret (VDict items)
                | None => unsupported "unpacking of an external mapping"
                end
        | _ => unsupported "dict with positional arguments"
        end
      else if String.eqb name "print" then
        interact w (ACall f args kws) ;;; ret VNone
      else n <- interact w (ACall f args kws) ;; ret (VResult n)
  | _ =>
      if is_external f
      then n <- interact w (ACall f args kws) ;; ret (VResult n)
      else raise (TypeError "not callable")
  end.

Fixpoint eval (fuel : nat) (w : world) (e : expr) {struct fuel} : M value :=
  match fuel with
  | O => out_of_fuel
  | S f =>
      match e with
      | Name x => get_var x
      | Constant c => ret (value_of_constant c)
      | Attribute o a => v <- eval f w o ;; get_attr v a
      | Subscript o k => v <- eval f w o ;; i <- eval f w k ;; get_item v i
      | Call fn args kws =>
          c <- eval f w fn ;;
          vs <- eval_list f w args ;;
          ks <- eval_keywords f w kws ;;
          call w c vs ks
      | List_ es => vs <- eval_list f w es ;; ret (VList vs)
      | Tuple es => vs <- eval_list f w es ;; ret (VTuple vs)
      | Dict items => kvs <- eval_items f w items ;; ret (VDict (dict_of kvs))
      | UnaryOp Not x =>
          v <- eval f w x ;; b <- truthy w v ;; ret (VBool (negb b))
      | UnaryOp USub x => v <- eval f w x ;; negate v
      | BinOp l op r => a <- eval f w l ;; b <- eval f w r ;; binop op a b
      | BoolOp And l r =>
          a <- eval f w l ;; c <- truthy w a ;;
          if c then eval f w r else ret a
      | BoolOp Or l r =>
          a <- eval f w l ;; c <- truthy w a ;;
          if c then ret a else eval f w r
      | IfExp t b o =>
          v <- eval f w t ;; c <- truthy w v ;;
          if c then eval f w b else eval f w o
      | Lambda _ _ => unsupported "lambda"
      | Comprehension _ _ _ => unsupported "comprehension"
      | Await _ => unsupported "await"
      | Yield _ => unsupported "yield"
      end
  end
with eval_list (fuel : nat) (w : world) (es : list expr) {struct fuel}
  : M (list value) :=
  match fuel with
  | O => out_of_fuel
  | S f =>
      match es with
      | [] => ret []
      | e :: r => v <- eval f w e ;; vs <- eval_list f w r ;; ret (v :: vs)
      end
  end
with eval_keywords (fuel : nat) (w : world) (kws : list (option string * expr))
  {struct fuel} : M (list (option string * value)) :=
  match fuel with
  | O => out_of_fuel
  | S f =>
      match kws with
      | [] => ret []
      | (k, e) :: r =>
          v <- eval f w e ;; vs <- eval_keywords f w r ;; ret ((k, v) :: vs)
      end
  end
with eval_items (fuel : nat) (w : world) (items : list (expr * expr))
  {struct fuel} : M (list (value * value)) :=
  match fuel with
  | O => out_of_fuel
  | S f =>
      match items with
      | [] => ret []
      | (k, e) :: r =>
          kv <- eval f w k ;; v <- eval f w e ;;
          vs <- eval_items f w r ;; ret ((kv, v) :: vs)
      end
  end.

(** *** Statements *)

(** Assignment: the right-hand side has been evaluated; the target is
    evaluated next.  A store into an external object is an interaction;
    the notebooks never store into a dictionary or list of their own. *)
Definition assign (fuel : nat) (w : world) (target : expr) (v : value) : M unit :=
  match target with
  | Name x => set_var x v
  | Attribute o a =>
      ov <- eval fuel w o ;;
      if is_external ov then interact w (ASetAttr ov a v) ;;; ret tt
      else unsupported "store into a kernel-side value"
  | Subscript o k =>
      ov <- eval fuel w o ;; kv <- eval fuel w k ;;
      if is_external ov then interact w (ASetItem ov kv v) ;;; ret tt
      else unsupported "store into a kernel-side value"
  | _ => unsupported "assignment target"
  end.

Fixpoint bind_imports (m : string) (names : list (string * option string))
  : M unit :=
  match names with
  | [] => ret tt
  | (n, a) :: r =>
      set_var (match a with Some a' => a' | None => n end) (VImported m n) ;;;
      bind_imports m r
  end.

Fixpoint exec (fuel : nat) (w : world) (cid : string) (path : list nat)
  (s : stmt) {struct fuel} : M unit :=
  match fuel with
  | O => out_of_fuel
  | S f =>
      match s with
      | Magic line => interact w (AMagic line) ;;; ret tt
      | Import m asname =>
          interact w (AImport m []) ;;;
          match asname with
          | Some a => set_var a (VModule m)
          | None => set_var (top_package m) (VModule (top_package m))
          end
      | ImportFrom m names =>
          interact w (AImport m (map fst names)) ;;; bind_imports m names
      | Assign t v => x <- eval f w v ;; assign f w t x
      | Expr v => eval f w v ;;; ret tt
      | If t b o =>
          v <- eval f w t ;; c <- truthy w v ;;
          if c then exec_block f w cid (path ++ [0]) 0 b
          else exec_block f w cid (path ++ [1]) 0 o
      | While t b =>
          v <- eval f w t ;; c <- truthy w v ;;
          if c then exec_block f w cid (path ++ [0]) 0 b ;;;
                    exec f w cid path (While t b)
          else ret tt
      | For x it b =>
          v <- eval f w it ;;
          match v with
          | VList vs | VTuple vs => exec_for f w cid path x vs b
          | _ => unsupported "iteration over this value"
          end
      | Try b h fin =>
          finally (catch (exec_block f w cid (path ++ [0]) 0 b)
                         (exec_block f w cid (path ++ [1]) 0 h))
                  (exec_block f w cid (path ++ [2]) 0 fin)
      | Assert t =>
          v <- eval f w t ;; c <- truthy w v ;;
          if c then ret tt else raise AssertionError
      | Raise e => v <- eval f w e ;; raise (Raised v)
      | Pass => ret tt
      | With _ _ => unsupported "with"
      | FunctionDef _ _ _ => unsupported "def"
      | AsyncFunctionDef _ _ _ => unsupported "async def"
      | AsyncFor _ _ _ => unsupported "async for"
      | AsyncWith _ _ => unsupported "async with"
      | ClassDef _ _ => unsupported "class"
      | Return _ => unsupported "return"
      end
  end
with exec_block (fuel : nat) (w : world) (cid : string) (path : list nat)
  (i : nat) (ss : list stmt) {struct fuel} : M unit :=
  match fuel with
  | O => out_of_fuel
  | S f =>
      match ss with
      | [] => ret tt
      | s :: r =>
          visit (cid, path ++ [i]) ;;;
          exec f w cid (path ++ [i]) s ;;;
          exec_block f w cid path (S i) r
      end
  end
with exec_for (fuel : nat) (w : world) (cid : string) (path : list nat)
  (x : string) (vs : list value) (b : list stmt) {struct fuel} : M unit :=
  match fuel with
  | O => out_of_fuel
  | S f =>
      match vs with
      | [] => ret tt
      | v :: r =>
          set_var x v ;;;
          exec_block f w cid (path ++ [0]) 0 b ;;;
          exec_for f w cid path x r b
      end
  end.

(** *** Running a notebook: the code cells, top to bottom, in one kernel;
    the run stops at the first cell that does not complete. *)
Fixpoint run_cells (fuel : nat) (w : world) (cs : notebook) : M unit :=
  match cs with
  | [] => ret tt
  | Markdown _ :: r => run_cells fuel w r
  | Code id src :: r => exec_block fuel w id [] 0 src ;;; run_cells fuel w r
  end.

Definition run (fuel : nat) (w : world) (nb : notebook) : outcome unit * state :=
  run_cells fuel w nb init.

(** The interactions of a run, oldest first; interaction [n] is at
    position [n]. *)
Definition trace (r : outcome unit * state) : list event := rev (events (snd r)).

(** The statements a run started, oldest first. *)
Definition visited (r : outcome unit * state) : list loc := rev (executed (snd r)).

(** Fuel that suffices for both notebooks: each nesting level and each
    element of a list of statements or arguments costs one unit.  The
    properties are stated for [fuel + n], any [n]: a run that has an
    outcome keeps it when given more fuel. *)
Definition fuel : nat := 64.

(** *** Statements without [try] *)

Fixpoint no_try (s : stmt) : bool :=
  match s with
  | Try _ _ _ => false
  | If _ b o => forallb no_try b && forallb no_try o
  | While _ b | For _ _ b | With _ b | AsyncFor _ _ b | AsyncWith _ b =>
      forallb no_try b
  | FunctionDef _ _ b | AsyncFunctionDef _ _ b | ClassDef _ b => forallb no_try b
  | _ => true
  end.

Definition nb_no_try (nb : notebook) : bool :=
  forallb (fun c => forallb no_try (Syntax.cell_source c)) nb.

(** Statements covered by a fact that holds of code without [try] only
    ([tries = false]) or of all code ([tries = true]). *)
Definition covered (tries : bool) (s : stmt) : bool := tries || no_try s.

(** ** Relations between computations, used to state how runs in different
    worlds, or with different amounts of fuel, correspond *)

(** A computation only ever adds events. *)
Definition grows {A} (m : M A) : Prop :=
  forall st, exists new, events (snd (m st)) = new ++ events st.

(** [m] runs in a world [w] that may fail, [m'] in a world that does not:
    either both do the same, or [m] stopped at the first failing
    interaction, which [m'] went through. *)
Definition truncated (w : world) {A} (m m' : M A) : Prop :=
  forall st,
    m st = m' st \/
    exists a rep pre new,
      fails w (length pre) = true /\
      fst (m st) = Exn (ExternalFailure (length pre)) /\
      events (snd (m st)) = (a, Failed) :: pre /\
      events (snd (m' st)) = new ++ (a, rep) :: pre.

(** [m'] has more fuel than [m]: where [m] did not run out, they agree. *)
Definition stable {A} (m m' : M A) : Prop :=
  forall st, fst (m st) <> OutOfFuel -> m' st = m st.

(** The trace of a run that stopped at interaction [k] of the trace [tr]. *)
Definition truncate (k : nat) (tr : list event) : list event :=
  firstn k tr ++ match nth_error tr k with
                 | Some (a, _) => [(a, Failed)]
                 | None => []
                 end.

(** The two facts the truncation of a run rests on, together. *)
Definition truncating (w : world) (A : Type) (m m' : M A) : Prop :=
  grows m' /\ truncated w m m'.

End Kernel.

Import Kernel.

(** ** Reading a trace

    The properties of the notebooks are properties of the interactions they
    have with the libraries they drive.  The functions below read a trace:
    where an object came from, which stage of the pipeline a call belongs
    to, which files it touches, which handles it opens and closes. *)

Module Trace.

Definition returned (ev : event) : bool :=
  match snd ev with Failed => false | _ => true end.

(** The imported name an external object goes back to: [m.f] for an
    object imported as [from m import f], for every attribute or item of
    it, and for whatever a call to one of those returned. *)
Fixpoint origin (fuel : nat) (tr : list event) (v : value) {struct fuel}
  : option (string * string) :=
  match fuel with
  | O => None
  | S f =>
      match v with
      | VBuiltin n => Some ("builtins", n)
      | VModule m => Some (m, EmptyString)
      | VImported m n => Some (m, n)
      | VAttr o _ | VItem o _ => origin f tr o
      | VResult n =>
          match nth_error tr n with
          | Some (ACall g _ _, _) => origin f tr g
          | _ => None
          end
      | _ => None
      end
  end.

Definition origin_of (tr : list event) (v : value) : option (string * string) :=
  origin (64 + length tr) tr v.

(** The package that provides the callee of a call. *)
Definition provider (tr : list event) (v : value) : option string :=
  option_map (fun mn => top_package (fst mn)) (origin_of tr v).

Definition from_module (pre : string) (tr : list event) (v : value) : bool :=
  match origin_of tr v with
  | Some (m, _) => String.prefix pre m
  | None => false
  end.

Definition from_name (name : string) (tr : list event) (v : value) : bool :=
  match origin_of tr v with
  | Some (_, n) => String.eqb n name
  | None => false
  end.

Definition calls_of (tr : list event) : list value :=
  flat_map (fun ev => match fst ev with
                      | ACall f _ _ => [f]
                      | _ => []
                      end) tr.

(** Packages outside the repository whose functions the notebooks call. *)
Definition external_packages : list string :=
  ["builtins"; "qiskit_metal"; "pyEPR"; "warnings"].

Definition all_calls_external (tr : list event) : bool :=
  forallb (fun f => match provider tr f with
                    | Some p => Syntax.mem p external_packages
                    | None => false
                    end) (calls_of tr).

(** Method calls [recv.name(...)] of a trace. *)
Definition is_method (name : string) (a : action) : bool :=
  match a with
  | ACall (VAttr _ m) _ _ => String.eqb m name
  | _ => false
  end.

Definition is_function (name : string) (a : action) : bool :=
  match a with
  | ACall (VImported _ n) _ _ => String.eqb n name
  | _ => false
  end.

Definition count (p : action -> bool) (tr : list event) : nat :=
  length (filter (fun ev => p (fst ev)) tr).

(** *** Stages of the pipeline

    - geometry: construction of a component of [qiskit_metal.qlibrary]
      (TransmonPocket6, TransmonCross, ReadoutResFC);
    - simulation: rendering, meshing and solving, that is a call of
      [render_design], [add_mesh], [export_mesh], [add_solution_setup] or
      [run] on a renderer: an object made by a class of
      [qiskit_metal.renderers], or the [sim] attribute of an analysis
      object ([eig_fc.sim.run]);
    - analysis: post-processing of what the solver produced, that is
      [display_post_processing_data] and [save_capacitance_matrix] on a
      renderer, loading the capacitance matrix, building the LOM objects
      (Cell, Subsystem, CompositeSystem), and any method call on an object
      of [qiskit_metal.analyses] other than through [sim].

    The construction of a renderer or of the EPR analysis object, GUI
    calls, closing a renderer, imports and option settings belong to no
    stage. *)

Inductive stage : Type := Geometry | Simulation | Analysis.

Definition rank (s : stage) : nat :=
  match s with Geometry => 0 | Simulation => 1 | Analysis => 2 end.

Definition simulation_methods : list string :=
  ["render_design"; "add_mesh"; "export_mesh"; "add_solution_setup"; "run"].

Definition post_processing_methods : list string :=
  ["display_post_processing_data"; "save_capacitance_matrix"].

Definition analysis_functions : list string :=
  ["load_capacitance_matrix_from_file"; "Cell"; "Subsystem"; "CompositeSystem"].

Fixpoint through_sim (v : value) : bool :=
  match v with
  | VAttr o a => String.eqb a "sim" || through_sim o
  | VItem o _ => through_sim o
  | _ => false
  end.

Definition is_renderer (tr : list event) (recv : value) : bool :=
  from_module "qiskit_metal.renderers" tr recv
  || (from_module "qiskit_metal.analyses" tr recv && through_sim recv).

Definition stage_of (tr : list event) (a : action) : option stage :=
  match a with
  | ACall (VImported m n) _ _ =>
      if String.prefix "qiskit_metal.qlibrary" m then Some Geometry
      else if Syntax.mem n analysis_functions then Some Analysis
      else None
  | ACall (VAttr recv m) _ _ =>
      if is_renderer tr recv then
        if Syntax.mem m simulation_methods then Some Simulation
        else if Syntax.mem m post_processing_methods then Some Analysis
        else None
      else if from_module "qiskit_metal.analyses" tr recv then Some Analysis
      else None
  | _ => None
  end.

Definition stages (tr : list event) : list stage :=
  flat_map (fun ev => match stage_of tr (fst ev) with
                      | Some s => [s]
                      | None => []
                      end) tr.

Fixpoint nondecreasing (cur : nat) (l : list stage) : bool :=
  match l with
  | [] => true
  | s :: r => Nat.leb cur (rank s) && nondecreasing (rank s) r
  end.

(** The solver runs: [elmer_renderer.run(...)], [eig_fc.sim.run(...)]. *)
Definition is_solve (tr : list event) (ev : event) : bool :=
  match stage_of tr (fst ev) with
  | Some Simulation => is_method "run" (fst ev) && returned ev
  | _ => false
  end.

(** Every analysis call comes after a solver run that returned, and every
    simulation call after the construction of a component. *)
Fixpoint staged (tr : list event) (built solved : bool) (rest : list event)
  : bool :=
  match rest with
  | [] => true
  | ev :: r =>
      match stage_of tr (fst ev) with
      | Some Geometry => staged tr (built || returned ev) solved r
      | Some Simulation =>
          built && staged tr built (solved || is_solve tr ev) r
      | Some Analysis => solved && staged tr built solved r
      | None => staged tr built solved r
      end
  end.

Definition pipeline_in_order (tr : list event) : bool :=
  nondecreasing 0 (stages tr) && staged tr false false tr.

Definition stage_eqb (a b : stage) : bool := Nat.eqb (rank a) (rank b).

Definition all_stages_present (tr : list event) : bool :=
  forallb (fun s => existsb (stage_eqb s) (stages tr))
          [Geometry; Simulation; Analysis].

(** *** Files *)






(** Values a value is made of. *)
Fixpoint parts (v : value) : list value :=
  v :: match v with
       | VList l | VTuple l => flat_map parts l
       | VDict items => flat_map (fun kv => parts (fst kv) ++ parts (snd kv)) items
       | VAttr o _ => parts o
       | VItem o k => parts o ++ parts k
       | VArith _ l r => parts l ++ parts r
       | _ => []
       end.

Definition arguments (a : action) : list value :=
  match a with
  | ACall _ args kws => args ++ map snd kws
  | ASetAttr _ _ v => [v]
  | ASetItem _ k v => [k; v]
  | _ => []
  end.

Definition mentions (x : value) (a : action) : bool :=
  existsb (value_eqb x) (flat_map parts (arguments a)).



Definition renderer_classes : list string := ["QGmshRenderer"; "QElmerRenderer"].

(** The renderer objects a trace constructs. *)
Definition renderers (tr : list event) : list value :=
  flat_map (fun nev =>
              match snd nev with
              | (ACall (VImported _ c) _ _, _) =>
                  if Syntax.mem c renderer_classes
                  then [VResult (fst nev)] else []
              | _ => []
              end)
           (combine (seq 0 (length tr)) tr).



(** *** Connection pads and opened pins *)

Definition keyword (k : string) (kws : list (option string * value))
  : option value :=
  match find (fun kv => match fst kv with
                        | Some k' => String.eqb k k'
                        | None => false
                        end) kws with
  | Some kv => Some (snd kv)
  | None => None
  end.

Definition strings (l : list value) : option (list string) :=
  fold_right (fun v acc => match v, acc with
                           | VStr s, Some r => Some (s :: r)
                           | _, _ => None
                           end) (Some []) l.

(** The pads declared for the component [comp]: the keys of
    [connection_pads] in the options it was constructed with. *)
Definition declared_pads (comp : string) (tr : list event) : option (list string) :=
  match find (fun ev => match fst ev with
                        | ACall (VImported m _) (_ :: VStr c :: _) _ =>
                            String.prefix "qiskit_metal.qlibrary" m
                            && String.eqb c comp && returned ev
                        | _ => false
                        end) tr with
  | Some (ACall _ _ kws, _) =>
      match keyword "options" kws with
      | Some (VDict opts) =>
          match dict_get (VStr "connection_pads") opts with
          | Some (VDict pads) => strings (map fst pads)
          | _ => None
          end
      | _ => None
      end
  | _ => None
  end.

(** The pins a [render_design] call opens, as (component, pin) pairs. *)
Definition opened_pins (a : action) : option (list (string * string)) :=
  match a with
  | ACall _ _ kws =>
      match keyword "open_pins" kws with
      | Some (VList l) =>
          fold_right (fun v acc => match v, acc with
                                   | VTuple [VStr c; VStr p], Some r =>
                                       Some ((c, p) :: r)
                                   | _, _ => None
                                   end) (Some []) l
      | _ => None
      end
  | _ => None
  end.

Definition same_set (a b : list string) : bool :=
  forallb (fun x => Syntax.mem x b) a && forallb (fun x => Syntax.mem x a) b.

Fixpoint distinct (l : list string) : bool :=
  match l with
  | [] => true
  | x :: r => negb (Syntax.mem x r) && distinct r
  end.

(** A [render_design] call opens exactly the declared pads of Q1. *)
Definition opens_declared (tr : list event) (a : action) : bool :=
  match opened_pins a, declared_pads "Q1" tr with
  | Some pins, Some pads =>
      forallb (fun cp => String.eqb (fst cp) "Q1") pins
      && same_set (map snd pins) pads
      && distinct (map snd pins)
  | _, _ => false
  end.

Definition pins_match_pads (tr : list event) : bool :=
  forallb (fun ev => if is_method "render_design" (fst ev)
                     then opens_declared tr (fst ev) else true) tr.

(** *** Handles

    What a notebook opens and has to give back: the window of the Metal
    GUI ([MetalGUI(design)], "launch GUI"), a Gmsh or Elmer renderer, the
    project, desktop and application handles of ANSYS
    ([project_info.ProjectInfo()], "get the handles to the ANSYS system"),
    the simulation of an EPR analysis.  A handle is given back by calling
    its [close] or [release]. *)

Definition opened (n : nat) (ev : event) : list value :=
  if returned ev then
    match fst ev with
    | ACall (VImported _ c) _ _ =>
        if String.eqb c "MetalGUI" then [VAttr (VResult n) "main_window"]
        else if String.eqb c "QGmshRenderer" || String.eqb c "QElmerRenderer"
             then [VResult n]
        else if String.eqb c "EPRanalysis" then [VAttr (VResult n) "sim"]
        else []
    | ACall (VAttr (VImported _ _) c) _ _ =>
        if String.eqb c "ProjectInfo"
        then [VAttr (VResult n) "project"; VAttr (VResult n) "desktop";
              VAttr (VResult n) "app"]
        else []
    | _ => []
    end
  else [].

Definition closed (ev : event) : list value :=
  if returned ev then
    match fst ev with
    | ACall (VAttr h m) _ _ =>
        if String.eqb m "close" || String.eqb m "release" then [h] else []
    | _ => []
    end
  else [].

Fixpoint remove_value (h : value) (l : list value) : list value :=
  match l with
  | [] => []
  | x :: r => if value_eqb h x then remove_value h r else x :: remove_value h r
  end.

(** The handles still open after the trace [tr], starting from [held]. *)
Fixpoint handles (n : nat) (tr : list event) (held : list value) : list value :=
  match tr with
  | [] => held
  | ev :: r =>
      handles (S n) r
        (fold_right remove_value (held ++ opened n ev) (closed ev))
  end.

Definition open_handles (tr : list event) : list value := handles 0 tr [].

(** *** The material guard of the flip-chip notebook *)

(** An [AddMaterial] call at position [j] directly follows the truth test
    of what [DoesMaterialExist] returned for the material being added; the
    test was answered false. *)
Definition guarded_add (tr : list event) (j : nat) : bool :=
  match nth_error tr j with
  | Some (ACall (VAttr mgr _) (VList (VStr entry :: _) :: _) _, _) =>
      match j with
      | S (S i) =>
          match nth_error tr i, nth_error tr (S i) with
          | Some (ACall (VAttr mgr' q) [VStr name] _, Returned),
            Some (ATruth (VResult i'), Answered false) =>
              String.eqb q "DoesMaterialExist" && value_eqb mgr mgr'
              && Nat.eqb i i'
              && String.eqb entry (String.append "NAME:" name)
          | _, _ => false
          end
      | _ => false
      end
  | _ => false
  end.

Definition adds_only_missing (tr : list event) : bool :=
  forallb (fun j => match nth_error tr j with
                    | Some (a, _) =>
                        if is_method "AddMaterial" a then guarded_add tr j
                        else true
                    | None => true
                    end) (seq 0 (length tr)).

(** The material each chip is given: the stores
    [design.chips[chip]['material'] = v]. *)
Definition material_stores (tr : list event) : list (value * value) :=
  flat_map (fun ev => match ev with
                      | (ASetItem (VItem (VAttr _ a) chip) (VStr k) v, Returned) =>
                          if String.eqb a "chips" && String.eqb k "material"
                          then [(chip, v)] else []
                      | _ => []
                      end) tr.

(** The names [DoesMaterialExist] was asked about. *)
Definition materials_checked (tr : list event) : list value :=
  flat_map (fun ev => match fst ev with
                      | ACall (VAttr _ q) [name] _ =>
                          if String.eqb q "DoesMaterialExist" then [name] else []
                      | _ => []
                      end) tr.

End Trace.

(** ** The two notebooks and what is asked of them *)

Import Trace.

(** Where the statements of a notebook are, in the order a run that meets
    no branch and no failure would start them. *)
Fixpoint stmt_locs (cid : string) (path : list nat) (s : stmt) {struct s}
  : list loc :=
  let block :=
    fix block (p : list nat) (i : nat) (l : list stmt) {struct l} : list loc :=
      match l with
      | [] => []
      | s' :: r => stmt_locs cid (p ++ [i]) s' ++ block p (S i) r
      end in
  (cid, path) ::
  match s with
  | If _ b o => block (path ++ [0]) 0 b ++ block (path ++ [1]) 0 o
  | Try b h f =>
      block (path ++ [0]) 0 b ++ block (path ++ [1]) 0 h
      ++ block (path ++ [2]) 0 f
  | While _ b | For _ _ b | With _ b | AsyncFor _ _ b | AsyncWith _ b
  | FunctionDef _ _ b | AsyncFunctionDef _ _ b | ClassDef _ b =>
      block (path ++ [0]) 0 b
  | _ => []
  end.

Fixpoint block_locs (cid : string) (p : list nat) (i : nat) (l : list stmt)
  : list loc :=
  match l with
  | [] => []
  | s :: r => stmt_locs cid (p ++ [i]) s ++ block_locs cid p (S i) r
  end.

Definition all_locs (nb : notebook) : list loc :=
  flat_map (fun c => match c with
                     | Markdown _ => []
                     | Code id src => block_locs id [] 0 src
                     end) nb.

Definition loc_eqb (a b : loc) : bool :=
  String.eqb (fst a) (fst b)
  && (length (snd a) =? length (snd b))%nat
  && forallb (fun xy => Nat.eqb (fst xy) (snd xy)) (combine (snd a) (snd b)).

Fixpoint distinct_locs (l : list loc) : bool :=
  match l with
  | [] => true
  | x :: r => negb (existsb (loc_eqb x) r) && distinct_locs r
  end.

(** *** Shape of the code *)

(** No definition of a function or class, by statement or by lambda. *)
Definition defines_nothing (nb : notebook) : bool :=
  forallb (fun s => negb (Syntax.is_definition s)) (Syntax.nb_stmts nb)
  && forallb (fun e => negb (Syntax.is_lambda e)) (Syntax.nb_exprs nb).

Definition conditionals (nb : notebook) : list stmt :=
  filter Syntax.is_conditional (Syntax.nb_stmts nb).

Definition loops (nb : notebook) : list stmt :=
  filter Syntax.is_loop (Syntax.nb_stmts nb).

Definition tries (nb : notebook) : list stmt :=
  filter Syntax.is_try (Syntax.nb_stmts nb).

Definition branching_exprs (nb : notebook) : list expr :=
  filter Syntax.is_branching_expr (Syntax.nb_exprs nb).

(** Straight-line code: no conditional, no loop, no [try], no expression
    that chooses or repeats. *)
Definition straight_line (nb : notebook) : bool :=
  match conditionals nb, loops nb, tries nb, branching_exprs nb with
  | [], [], [], [] => true
  | _, _, _, _ => false
  end.

Definition is_call (e : expr) : bool :=
  match e with Call _ _ _ => true | _ => false end.

(** A guard: a conditional whose test asks something of an external
    system (it contains a call) before its body acts. *)
Definition is_guard (s : stmt) : bool :=
  match s with
  | If t _ _ => existsb is_call (Syntax.subexprs t)
  | _ => false
  end.

Definition guards (nb : notebook) : list stmt :=
  filter is_guard (Syntax.nb_stmts nb).

(** The tests a notebook makes: of conditionals, loops and assertions. *)
Definition tests (nb : notebook) : list expr :=
  flat_map (fun s => match s with
                     | If t _ _ | While t _ | Assert t => [t]
                     | _ => []
                     end) (Syntax.nb_stmts nb)
  ++ flat_map (fun e => match e with
                        | IfExp t _ _ => [t]
                        | BoolOp _ l _ => [l]
                        | _ => []
                        end) (Syntax.nb_exprs nb).

(** A test of what an external call answered: [f(...)] or [not f(...)]. *)
Definition tests_external_answer (t : expr) : bool :=
  match t with
  | Call _ _ _ | UnaryOp Not (Call _ _ _) => true
  | _ => false
  end.

(** No assertion, no raise, no class or function of its own, and no test
    of a value the notebook built. *)
Definition enforces_nothing (nb : notebook) : bool :=
  forallb (fun s => negb (Syntax.is_check s)) (Syntax.nb_stmts nb)
  && defines_nothing nb
  && forallb tests_external_answer (tests nb).



(** *** Runs *)

(** The run of a notebook in the calm world in which every truth test is
    answered [b]. *)
Definition calm_run (nb : notebook) (b : bool) : outcome unit * state :=
  run fuel (calm (fun _ => b)) nb.

(** The one truth test of the flip-chip notebook, on what
    [DoesMaterialExist] returned, is interaction 32. *)
Definition guard_question : nat := 32.

(** The guarded statement of the flip-chip notebook: the [AddMaterial]
    call, first statement of the body of statement 4 of cell [6eb99015]. *)
Definition add_material_loc : loc := ("6eb99015", [4; 0; 0]).

(** Interactions are strictly sequential: none is begun after one that
    failed, so every interaction but the last has been answered. *)
Definition sequential (tr : list event) : bool :=
  forallb returned (removelast tr).

(** What a run leaves in its variables is external, or a string, or a
    dictionary that was handed to an external call. *)
Definition is_scalar (v : value) : bool :=
  match v with
  | VNone | VBool _ | VInt _ | VFloat _ | VStr _ => true
  | _ => false
  end.

Definition is_dict (v : value) : bool :=
  match v with VDict _ => true | _ => false end.

Definition handed_over (r : outcome unit * state) : bool :=
  forallb (fun xv =>
             let v := snd xv in
             is_external v || is_scalar v
             || (is_dict v
                 && existsb (fun ev => mentions v (fst ev)) (events (snd r))))
          (env (snd r)).

(** The flip-chip notebook stores a chip material only after the material
    has been checked. *)
Fixpoint stores_after_check (checked : bool) (tr : list event) : bool :=
  match tr with
  | [] => true
  | ev :: r =>
      match fst ev with
      | ACall (VAttr _ q) _ _ =>
          stores_after_check
            (checked || (String.eqb q "DoesMaterialExist" && returned ev)) r
      | ASetItem _ (VStr k) _ =>
          (if String.eqb k "material" then checked else true)
          && stores_after_check checked r
      | _ => stores_after_check checked r
      end
  end.

(** What a run can be, given the run [r0] in the calm world: [r0] itself
    or one of its truncations. *)
Definition behaviours (r0 : outcome unit * state)
  : list (outcome unit * list event) :=
  (fst r0, trace r0)
  :: map (fun k => (Exn (ExternalFailure k), truncate k (trace r0)))
         (seq 0 (length (trace r0))).

(** The [render_design] calls of a trace: the class of the renderer and
    the pins opened. *)
Definition render_calls (tr : list event)
  : list (option (string * string) * option (list (string * string))) :=
  flat_map (fun ev => match fst ev with
                      | ACall (VAttr recv m) _ _ =>
                          if String.eqb m "render_design"
                          then [(origin_of tr recv, opened_pins (fst ev))]
                          else []
                      | _ => []
                      end) tr.

(** The named computations are reached through method calls. *)
Definition invoked (methods : list string) (tr : list event) : bool :=
  forallb (fun m => Nat.ltb 0 (count (is_method m) tr)) methods.

(** A one-cell notebook, to try the kernel on small programs. *)
Definition demo (src : list stmt) (w : world) : outcome unit * state :=
  run fuel w [Code "demo" src].

(** The world in which interaction [k] fails and every truth test is
    answered [b]. *)
Definition failing_at (k : nat) (b : bool) : world :=
  {| fails := fun n => Nat.eqb n k; truth := fun _ => b |}.

(** *** Two sentences of the description that do not hold of the
    flip-chip notebook as they stand *)

(** "No cell contains any conditional branch or loop, so every statement
    executes exactly once, in cell order, on every run." *)
Definition runs_every_statement_once (nb : notebook) : Prop :=
  straight_line nb = true /\
  forall w, fst (run fuel w nb) = Ok tt ->
            visited (run fuel w nb) = all_locs nb.

(** "No notebook cell contains a try/except, a retry loop, or a guard that
    checks an external system's state before acting." *)
Definition handles_nothing (nb : notebook) : Prop :=
  tries nb = [] /\ loops nb = [] /\ guards nb = [].

(** ** Further readings of a trace: how objects are used *)

Module Usage.

(** [v] is the object [h], or is reached from it: an attribute or an item
    of something reached from [h], or what a call of something reached
    from [h] returned ([defmanager] is reached from [ans_prj.project]). *)
Fixpoint derived (fuel : nat) (tr : list event) (h v : value) {struct fuel}
  : bool :=
  match fuel with
  | O => false
  | S f =>
      value_eqb h v
      || match v with
         | VAttr o _ | VItem o _ => derived f tr h o
         | VResult n =>
             match nth_error tr n with
             | Some (ACall g _ _, _) => derived f tr h g
             | _ => false
             end
         | _ => false
         end
  end.

Definition derived_from (tr : list event) (h v : value) : bool :=
  derived (64 + length tr) tr h v.

Definition given (tr : list event) (h : value) (vs : list value) : bool :=
  existsb (derived_from tr h) (flat_map parts vs).

(** An interaction uses [h]: it calls, tests or stores into something
    reached from [h], or passes such a thing on. *)
Definition uses (tr : list event) (h : value) (a : action) : bool :=
  match a with
  | ACall f args kws => derived_from tr h f || given tr h (args ++ map snd kws)
  | ATruth v => derived_from tr h v
  | ASetAttr o _ v => derived_from tr h o || given tr h [v]
  | ASetItem o k v => derived_from tr h o || given tr h [k; v]
  | _ => false
  end.

(** No interaction uses a handle that an earlier interaction closed or
    released. *)
Fixpoint no_use_after (tr : list event) (gone : list value)
  (rest : list event) : bool :=
  match rest with
  | [] => true
  | ev :: r =>
      forallb (fun h => negb (uses tr h (fst ev))) gone
      && no_use_after tr (closed ev ++ gone) r
  end.

Definition never_used_after_close (tr : list event) : bool :=
  no_use_after tr [] tr.

Definition closings (tr : list event) : list value := flat_map closed tr.

(** *** The calls made on one renderer, in order *)

Definition class_of (tr : list event) (r : value) : string :=
  match origin_of tr r with
  | Some (_, c) => c
  | None => EmptyString
  end.

(** The method calls whose receiver is [r] itself: name, positional
    arguments, keywords, and whether the call returned. *)
Definition calls_on (tr : list event) (r : value)
  : list (string * list value * list (option string * value) * bool) :=
  flat_map (fun ev => match fst ev with
                      | ACall (VAttr recv m) args kws =>
                          if value_eqb r recv
                          then [(m, args, kws, returned ev)] else []
                      | _ => []
                      end) tr.

(** A call that generates a mesh: [add_mesh], a [render_design] of the
    Gmsh renderer with [mesh_geoms=True], any [render_design] of the
    Elmer renderer ("Render design and generate mesh"). *)
Definition meshes (cls m : string) (kws : list (option string * value)) : bool :=
  String.eqb m "add_mesh"
  || (String.eqb m "render_design"
      && (String.eqb cls "QElmerRenderer"
          || match keyword "mesh_geoms" kws with
             | Some (VBool true) => true
             | _ => false
             end)).

Record progress : Type := mkProgress {
  rendered : bool;
  meshed : bool;
  exported : bool;
  setups : list (list value);
  solved : bool
}.

Definition fresh : progress :=
  {| rendered := false; meshed := false; exported := false;
     setups := []; solved := false |}.

Definition same_args (a b : list value) : bool := value_eqb (VList a) (VList b).

(** What a call needs to have happened on its renderer. *)
Definition allowed (cls : string) (p : progress) (m : string)
  (args : list value) : bool :=
  if String.eqb m "render_design" then true
  else if String.eqb m "add_mesh" || String.eqb m "launch_gui"
          || String.eqb m "launch_gmsh_gui" then rendered p
  else if String.eqb m "export_mesh" then meshed p
  else if String.eqb m "add_solution_setup" then rendered p
  else if String.eqb m "run" then exported p && existsb (same_args args) (setups p)
  else if String.eqb m "display_post_processing_data"
          || String.eqb m "save_capacitance_matrix" then solved p
  else true.

(** What a call that returned brings about.  A new rendering replaces
    the mesh. *)
Definition advance (cls : string) (p : progress) (m : string)
  (args : list value) (kws : list (option string * value)) : progress :=
  if String.eqb m "render_design" then
    {| rendered := true; meshed := meshes cls m kws; exported := false;
       setups := setups p; solved := false |}
  else if String.eqb m "add_mesh" then
    {| rendered := rendered p; meshed := true; exported := exported p;
       setups := setups p; solved := solved p |}
  else if String.eqb m "export_mesh" then
    {| rendered := rendered p; meshed := meshed p; exported := true;
       setups := setups p; solved := solved p |}
  else if String.eqb m "add_solution_setup" then
    {| rendered := rendered p; meshed := meshed p; exported := exported p;
       setups := args :: setups p; solved := solved p |}
  else if String.eqb m "run" then
    {| rendered := rendered p; meshed := meshed p; exported := exported p;
       setups := setups p; solved := true |}
  else p.

Fixpoint in_order (cls : string) (p : progress)
  (cs : list (string * list value * list (option string * value) * bool))
  : bool :=
  match cs with
  | [] => true
  | (m, args, kws, ok) :: r =>
      allowed cls p m args
      && in_order cls (if ok then advance cls p m args kws else p) r
  end.

Definition renderers_in_order (tr : list event) : bool :=
  forallb (fun r => in_order (class_of tr r) fresh (calls_on tr r))
          (renderers tr).

Definition methods_on (tr : list event) (r : value) : list string :=
  map (fun c => fst (fst (fst c))) (calls_on tr r).

(** *** Mesh sizes *)

Definition is_digit (c : ascii) : bool :=
  Nat.leb 48 (nat_of_ascii c) && Nat.leb (nat_of_ascii c) 57.

Fixpoint digits (s : string) (acc : nat) : nat * string :=
  match s with
  | EmptyString => (acc, s)
  | String c r =>
      if is_digit c then digits r (10 * acc + (nat_of_ascii c - 48))
      else (acc, s)
  end.

(** ['5um'] as the number 5 and the unit [um]. *)
Definition quantity (s : string) : option (nat * string) :=
  match s with
  | String c _ => if is_digit c then Some (digits s 0) else None
  | EmptyString => None
  end.

(** The last value stored into attribute [name] of an object reached from
    [r], among the events [evs] (oldest first). *)
Definition last_store (tr : list event) (r : value) (name : string)
  (evs : list event) : option value :=
  match find (fun ev => match ev with
                        | (ASetAttr o a _, Returned) =>
                            String.eqb a name && derived_from tr r o
                        | _ => false
                        end) (rev evs) with
  | Some (ASetAttr _ _ v, _) => Some v
  | _ => None
  end.

Definition ordered_sizes (mn mx : option value) : bool :=
  match mn, mx with
  | None, None => true
  | Some (VStr a), Some (VStr b) =>
      match quantity a, quantity b with
      | Some (x, u), Some (y, u') => Nat.ltb x y && String.eqb u u'
      | _, _ => false
      end
  | _, _ => false
  end.

(** At every call that generates a mesh, the sizes of the renderer's
    mesh options are the defaults, or both set, in one unit, with the
    minimum below the maximum. *)
Definition sizes_in_order (tr : list event) : bool :=
  forallb (fun j =>
             match nth_error tr j with
             | Some (ACall (VAttr r m) _ kws, _) =>
                 if existsb (value_eqb r) (renderers tr)
                    && meshes (class_of tr r) m kws
                 then ordered_sizes (last_store tr r "min_size" (firstn j tr))
                                    (last_store tr r "max_size" (firstn j tr))
                 else true
             | _ => true
             end) (seq 0 (length tr)).

(** The sizes in force at each mesh generation. *)
Definition sizes_at_meshing (tr : list event)
  : list (string * option value * option value) :=
  flat_map (fun j =>
              match nth_error tr j with
              | Some (ACall (VAttr r m) _ kws, _) =>
                  if existsb (value_eqb r) (renderers tr)
                     && meshes (class_of tr r) m kws
                  then [(class_of tr r,
                         last_store tr r "min_size" (firstn j tr),
                         last_store tr r "max_size" (firstn j tr))]
                  else []
              | _ => []
              end) (seq 0 (length tr)).

(** *** The LOM objects *)

Definition call_at (tr : list event) (v : value)
  : option (string * list value * list (option string * value)) :=
  match v with
  | VResult n =>
      match nth_error tr n with
      | Some (ACall (VImported _ c) args kws, Returned) => Some (c, args, kws)
      | _ => None
      end
  | _ => None
  end.

Definition string_list (v : option value) : list string :=
  match v with
  | Some (VList l) => match strings l with Some s => s | None => [] end
  | _ => []
  end.

Definition dict_items (v : option value) : list (value * value) :=
  match v with Some (VDict items) => items | _ => [] end.

(** The nodes a cell knows: the targets of [node_rename] and the
    junction nodes of [jj_dict]. *)
Definition cell_nodes (tr : list event) (c : value) : list string :=
  match call_at tr c with
  | Some (_, VDict opts :: _, _) =>
      string_list
        (Some (VList (map snd (dict_items (dict_get (VStr "node_rename") opts))
                      ++ map snd (dict_items (dict_get (VStr "jj_dict") opts)))))
  | _ => []
  end.

Definition subsystem_nodes (tr : list event) (s : value) : list string :=
  match call_at tr s with
  | Some (_, _, kws) => string_list (keyword "nodes" kws)
  | None => []
  end.

Definition subsystem_name (tr : list event) (s : value) : list string :=
  match call_at tr s with
  | Some (_, _, kws) =>
      match keyword "name" kws with Some (VStr n) => [n] | _ => [] end
  | None => []
  end.

Definition made_by (cls : string) (tr : list event) (v : value) : bool :=
  match call_at tr v with
  | Some (c, _, _) => String.eqb c cls
  | None => false
  end.

Definition elements (v : option value) : list value :=
  match v with Some (VList l) => l | _ => [] end.

Definition included (a b : list string) : bool :=
  forallb (fun x => Syntax.mem x b) a.

(** A composite system is built from Subsystem and Cell objects; every
    node of a subsystem is a node of one of the cells; the nodes to keep
    are nodes of the subsystems; the subsystems have distinct names. *)
Definition composite_consistent (tr : list event) (a : action) : bool :=
  match a with
  | ACall (VImported _ c) _ kws =>
      if String.eqb c "CompositeSystem" then
        let subs := elements (keyword "subsystems" kws) in
        let cells := elements (keyword "cells" kws) in
        let sub_nodes := flat_map (subsystem_nodes tr) subs in
        forallb (made_by "Subsystem" tr) subs
        && forallb (made_by "Cell" tr) cells
        && negb (match sub_nodes with [] => true | _ => false end)
        && included sub_nodes (flat_map (cell_nodes tr) cells)
        && included (string_list (keyword "nodes_force_keep" kws)) sub_nodes
        && distinct (flat_map (subsystem_name tr) subs)
        && distinct sub_nodes
      else true
  | _ => true
  end.

Definition keys_alike (a b : list (value * value)) : bool :=
  value_eqb (VList (map fst a)) (VList (map fst b)).

Definition connector_pad (comp pad : string) : string :=
  String.append comp (String.append "_" (String.append pad "_connector_pad")).

(** The options of a cell: the junction dictionaries have the same keys,
    and [node_rename] sends the connector pad of each declared pad of Q1,
    and nothing else, to the name of the pad. *)
Definition cell_consistent (tr : list event) (a : action) : bool :=
  match a with
  | ACall (VImported _ c) (VDict opts :: _) _ =>
      if String.eqb c "Cell" then
        let jj := dict_items (dict_get (VStr "jj_dict") opts) in
        let rename := dict_items (dict_get (VStr "node_rename") opts) in
        keys_alike jj (dict_items (dict_get (VStr "ind_dict") opts))
        && keys_alike jj (dict_items (dict_get (VStr "cj_dict") opts))
        && negb (match jj with [] => true | _ => false end)
        && match declared_pads "Q1" tr with
           | Some pads =>
               forallb (fun kv => match kv with
                                  | (VStr k, VStr p) =>
                                      String.eqb k (connector_pad "Q1" p)
                                  | _ => false
                                  end) rename
               && same_set pads (string_list (Some (VList (map snd rename))))
           | None => false
           end
      else true
  | _ => true
  end.

Definition lom_consistent (tr : list event) : bool :=
  forallb (fun ev => composite_consistent tr (fst ev)
                     && cell_consistent tr (fst ev)) tr.

(** *** The Hilbert space *)

(** What [hamiltonian_results] is given, and what [hamiltonian] is called
    on, is the space [add_interaction] returned for the same composite
    system, after [create_hilbertspace] returned on it. *)
Definition with_interactions (tr : list event) (sys h : value) (j : nat) : bool :=
  match h with
  | VResult k =>
      match nth_error tr k with
      | Some (ACall (VAttr sys' m) _ _, Returned) =>
          String.eqb m "add_interaction" && value_eqb sys sys'
          && existsb (fun ev => match ev with
                                | (ACall (VAttr s c) _ _, Returned) =>
                                    String.eqb c "create_hilbertspace"
                                    && value_eqb sys s
                                | _ => false
                                end) (firstn k tr)
          && Nat.ltb k j
      | _ => false
      end
  | _ => false
  end.

Definition interacting_space (tr : list event) : bool :=
  forallb (fun j =>
             match nth_error tr j with
             | Some (ACall (VAttr recv m) args _, _) =>
                 if String.eqb m "hamiltonian_results" then
                   match args with
                   | h :: _ => with_interactions tr recv h j
                   | [] => false
                   end
                 else if String.eqb m "hamiltonian" then
                   match recv with
                   | VResult k =>
                       match nth_error tr k with
                       | Some (ACall (VAttr sys _) _ _, _) =>
                           with_interactions tr sys recv j
                       | _ => false
                       end
                   | _ => false
                   end
                 else true
             | _ => true
             end) (seq 0 (length tr)).

(** *** The GUI and the design *)

(** After a component has been constructed the GUI is rebuilt before the
    next component is constructed and before anything is rendered or
    solved. *)
Fixpoint gui_in_sync (tr : list event) (pending : bool) (rest : list event)
  : bool :=
  match rest with
  | [] => true
  | ev :: r =>
      match stage_of tr (fst ev) with
      | Some Geometry => negb pending && gui_in_sync tr (returned ev) r
      | Some Simulation => negb pending && gui_in_sync tr pending r
      | _ =>
          gui_in_sync tr
            (pending && negb (is_method "rebuild" (fst ev)
                              && from_name "MetalGUI" tr
                                   (match fst ev with
                                    | ACall (VAttr g _) _ _ => g
                                    | _ => VNone
                                    end)
                              && returned ev)) r
      end
  end.

Definition components (tr : list event) : list string :=
  flat_map (fun ev => match ev with
                      | (ACall (VImported m _) (_ :: VStr c :: _) _, Returned) =>
                          if String.prefix "qiskit_metal.qlibrary" m
                          then [c] else []
                      | _ => []
                      end) tr.





(** *** The set-up of the eigenmode simulation *)

Fixpoint contains (sub s : string) : bool :=
  String.prefix sub s
  || match s with
     | EmptyString => false
     | String _ r => contains sub r
     end.

Definition last_attr (name : string) (evs : list event) : option value :=
  match find (fun ev => match ev with
                        | (ASetAttr _ a _, Returned) => String.eqb a name
                        | _ => false
                        end) (rev evs) with
  | Some (ASetAttr _ _ v, _) => Some v
  | _ => None
  end.

Definition chip_names (l : list value) : list string :=
  match strings l with Some s => s | None => [] end.

(** A solver run that names its components names exactly the components
    constructed, the number of modes set is their number, and the
    junction names set name one of them. *)
Definition run_matches_design (tr : list event) : bool :=
  forallb (fun j =>
             match nth_error tr j with
             | Some (ACall (VAttr _ m) _ kws, _) =>
                 match String.eqb m "run", keyword "components" kws with
                 | true, Some (VList cs) =>
                     let before := firstn j tr in
                     value_eqb (VList cs) (VList (map VStr (components before)))
                     && match last_attr "n_modes" before with
                        | Some (VInt z) => Z.eqb z (Z.of_nat (length cs))
                        | _ => false
                        end
                     && forallb (fun a =>
                                   match last_attr a before with
                                   | Some (VStr s) =>
                                       existsb (fun c => contains c s)
                                               (components before)
                                   | _ => false
                                   end) ["rect"; "line"]
                 | _, _ => true
                 end
             | _ => true
             end) (seq 0 (length tr)).

(** The bulk dielectrics given to the EPR analysis are the chips that
    were given a material. *)
Definition dielectrics_are_chips (tr : list event) : bool :=
  forallb (fun j =>
             match nth_error tr j with
             | Some (ASetAttr _ a (VList chips), _) =>
                 if String.eqb a "dielectrics_bulk" then
                   same_set (chip_names chips)
                            (chip_names (map fst (material_stores (firstn j tr))))
                 else true
             | _ => true
             end) (seq 0 (length tr)).

(** *** Where the components are placed *)

Definition splats (kws : list (option string * value)) : list value :=
  flat_map (fun kv => match fst kv with
                      | None => [snd kv]
                      | Some _ => []
                      end) kws.

(** For each component constructed: its name, the [pos_x] and [pos_y]
    written in its options, and the [chip] written in the mapping that
    is unpacked into them. *)
Definition placements (tr : list event)
  : list (string * option value * option value * list (option value)) :=
  flat_map (fun ev =>
              match fst ev with
              | ACall (VImported m _) (_ :: VStr c :: _) kws =>
                  if String.prefix "qiskit_metal.qlibrary" m then
                    match keyword "options" kws with
                    | Some o =>
                        match call_at tr o with
                        | Some (_, _, okws) =>
                            [(c, keyword "pos_x" okws, keyword "pos_y" okws,
                              map (fun s => match call_at tr s with
                                            | Some (_, _, skws) =>
                                                keyword "chip" skws
                                            | None => None
                                            end) (splats okws))]
                        | None => []
                        end
                    | None => []
                    end
                  else []
              | _ => []
              end) tr.

Definition option_value_eqb (a b : option value) : bool :=
  match a, b with
  | Some x, Some y => value_eqb x y
  | _, _ => false
  end.

Fixpoint stacked
  (l : list (string * option value * option value * list (option value)))
  : bool :=
  match l with
  | [] => true
  | (_, x, y, chips) :: r =>
      forallb (fun p => match p with
                        | (_, x', y', chips') =>
                            option_value_eqb x x' && option_value_eqb y y'
                            && forallb (fun c =>
                                          forallb (fun c' =>
                                                     negb (option_value_eqb c c'))
                                                  chips') chips
                        end) r
      && negb (match chips with [] => true | _ => false end)
      && stacked r
  end.

(** *** Parts of a notebook *)

Definition cell_id (c : cell) : string :=
  match c with Markdown id | Code id _ => id end.

(** The notebook without the cells [ids]. *)
Definition without (ids : list string) (nb : notebook) : notebook :=
  filter (fun c => negb (Syntax.mem (cell_id c) ids)) nb.

(** The material part of the flip-chip notebook ("if this is not of
    interest, feel free to skip this part"): the cell that names the
    material, the cell that adds it to the ANSYS library, the cell that
    assigns it to the chips. *)
Definition material_names : string := "025e0bfa".
Definition material_script : string := "6eb99015".
Definition material_assignment : string := "1b1af6d6".

(** The cells of the ElmerFEM notebook between the construction of the
    transmon and the LOM analysis: sections 2 and 3, rendering, meshing
    and solving. *)
Definition rendering_cells : list string :=
  ["d97e061c-fbcc-4419-a30c-8854b8c63444";
   "713202e1-dedc-469d-8dc3-9fe99496e42e";
   "eef5a352-24f3-4257-968f-be197eeba30d";
   "545d393c-8d57-4914-9dbc-92e8a0f32b0e";
   "b851f19f-e8d0-479e-b0ae-056fa8a47e9f";
   "4b02fbf9-2717-45b8-9293-3bd1121862f9";
   "af6556de-1546-47b5-8f26-9227af19ff86";
   "3672846f-b035-4eab-80a9-3c199eb4fd7c";
   "88883f88-342e-449c-a1ce-c253a28c0145";
   "8c2f7a6a-f6ed-4892-96c3-a62f866ef37c";
   "e7c297c2-be7e-495b-b98a-4062cab91be0";
   "43145408-a90f-4e75-921d-ca8eafd5ea7e";
   "ab7e7c7a-9207-4943-bf0f-1d183a8d007c";
   "5cc8b22f-f281-45c3-a53a-f2a7c9a29fed";
   "020dc57e-d668-4d7b-b8fc-62fcceb6468d";
   "b250b918-1cd7-429d-b015-92b114bf2594";
   "07625769-38c4-4be7-9c64-9e4e7b993506";
   "ca5cf807-4323-48d8-b6cd-f5e38f3b24d3"].

Definition analysis_calls (tr : list event) : list action :=
  flat_map (fun ev => match stage_of tr (fst ev) with
                      | Some Analysis => [fst ev]
                      | _ => []
                      end) tr.

Definition callee_name (a : action) : string :=
  match a with
  | ACall (VAttr _ m) _ _ | ACall (VImported _ m) _ _ => m
  | _ => EmptyString
  end.

(** A run stopped by a failure at an interaction from [lo] to [hi] still
    holds the handles [hs]. *)
Definition held_at_failure (lo hi : nat) (hs : list value)
  (o : outcome unit) (tr : list event) : bool :=
  match o with
  | Exn (ExternalFailure k) =>
      if Nat.leb lo k && Nat.leb k hi
      then forallb (fun h => existsb (value_eqb h) (open_handles tr)) hs
      else true
  | _ => true
  end.

(** The ANSYS handles [project_info.ProjectInfo()] opened at interaction
    [n]. *)
Definition ansys_handles (n : nat) : list value :=
  [VAttr (VResult n) "project"; VAttr (VResult n) "desktop";
   VAttr (VResult n) "app"].

Definition holds (hs : list value) (tr : list event) : bool :=
  forallb (fun h => existsb (value_eqb h) (open_handles tr)) hs.

(** *** The material of the flip-chip notebook, whatever it is called *)

(** The flip-chip notebook with other values in the cell that names the
    material. *)
Definition with_material (name permittivity losstangent : string) : notebook :=
  map (fun c => match c with
                | Code id src =>
                    if String.eqb id material_names
                    then Code id
                           [ Assign (Name "newMaterial_name") (str name);
                             Assign (Name "newMaterial_permittivity")
                                    (str permittivity);
                             Assign (Name "newMaterial_losstangent")
                                    (str losstangent) ]
                    else c
                | Markdown _ => c
                end) FlipChip.cells.

(** The records given to [AddMaterial]. *)
Definition added_materials (tr : list event) : list value :=
  flat_map (fun ev => match fst ev with
                      | ACall (VAttr _ m) (r :: _) _ =>
                          if String.eqb m "AddMaterial" then [r] else []
                      | _ => []
                      end) tr.

(** The record [AddMaterial] is given for a material. *)
Definition material_record (name permittivity losstangent : string) : value :=
  VList [VStr (String.append "NAME:" name);
         VStr "CoordinateSystemType:="; VStr "Cartesian";
         VStr "BulkOrSurfaceType:="; VInt 1;
         VList [VStr "NAME:PhysicsTypes"; VStr "set:=";
                VList [VStr "Electromagnetic"]];
         VStr "permittivity:="; VStr permittivity;
         VStr "dielectric_loss_tangent:="; VStr losstangent].

Definition ends_with (suffix s : string) : bool :=
  Nat.leb (String.length suffix) (String.length s)
  && String.eqb (substring (String.length s - String.length suffix)
                           (String.length suffix) s) suffix.

(** A record of the ANSYS scripting interface: a list that begins with
    ["NAME:..."], followed by keys ["...:="], each with its value, and by
    records. *)
Fixpoint well_formed_record (v : value) : bool :=
  match v with
  | VList (VStr name :: entries) =>
      String.prefix "NAME:" name
      && (fix fields (l : list value) : bool :=
            match l with
            | [] => true
            | VStr k :: rest =>
                ends_with ":=" k
                && match rest with
                   | [] => false
                   | x :: rest' =>
                       match x with
                       | VStr s => negb (ends_with ":=" s)
                       | _ => true
                       end && fields rest'
                   end
            | (VList _ as x) :: rest => well_formed_record x && fields rest
            | _ => false
            end) entries
  | _ => false
  end.

(** *** The resonators of the ElmerFEM notebook *)

(** A number written with up to three decimals, in thousandths. *)
Definition thousandths (v : value) : option Z :=
  match v with
  | VInt z => if Z.leb 0 z then Some (z * 1000)%Z else None
  | VFloat s =>
      match quantity s with
      | Some (i, EmptyString) => Some (Z.of_nat i * 1000)%Z
      | Some (i, String c f) =>
          if Ascii.eqb c "."%char then
            match digits f 0, String.length f with
            | (n, EmptyString), 1 =>
                Some (Z.of_nat i * 1000 + Z.of_nat n * 100)%Z
            | (n, EmptyString), 2 =>
                Some (Z.of_nat i * 1000 + Z.of_nat n * 10)%Z
            | (n, EmptyString), 3 =>
                Some (Z.of_nat i * 1000 + Z.of_nat n)%Z
            | _, _ => None
            end
          else None
      | None => None
      end
  | _ => None
  end.

(** The subsystems of type [TL_RESONATOR]: name, dressed frequency in
    thousandths of a GHz, impedance and phase velocity. *)
Definition resonators (tr : list event)
  : list (option value * option Z * option value * option value) :=
  flat_map (fun ev =>
              match fst ev with
              | ACall (VImported _ c) _ kws =>
                  match keyword "sys_type" kws with
                  | Some (VStr t) =>
                      if String.eqb c "Subsystem" && String.eqb t "TL_RESONATOR"
                      then
                        let q := dict_items (keyword "q_opts" kws) in
                        [(keyword "name" kws,
                          match dict_get (VStr "f_res") q with
                          | Some f => thousandths f
                          | None => None
                          end,
                          dict_get (VStr "Z0") q,
                          dict_get (VStr "vp") q)]
                      else []
                  | _ => []
                  end
              | _ => []
              end) tr.

Fixpoint distinct_numbers (l : list (option Z)) : bool :=
  match l with
  | [] => true
  | None :: _ => false
  | Some x :: r =>
      negb (existsb (fun y => match y with
                              | Some y' => Z.eqb x y'
                              | None => false
                              end) r)
      && distinct_numbers r
  end.

(** The resonators have different frequencies, and the same impedance and
    the same phase velocity, which is a multiple of the speed of light of
    [scipy.constants]. *)
Definition resonators_differ (tr : list event) : bool :=
  let rs := resonators tr in
  distinct_numbers (map (fun r => snd (fst (fst r))) rs)
  && forallb (fun r =>
                match snd r with
                | Some (VArith Mult (VFloat _) (VImported m c)) =>
                    String.eqb m "scipy.constants"
                    && String.eqb c "speed_of_light"
                | _ => false
                end
                && forallb (fun r' =>
                              option_value_eqb (snd r) (snd r')
                              && option_value_eqb (snd (fst r)) (snd (fst r')))
                           rs) rs.

(** *** Reading the results of the ElmerFEM notebook *)

Definition method_result (m : string) (tr : list event) (v : value) : bool :=
  match v with
  | VResult n =>
      match nth_error tr n with
      | Some (a, Returned) => is_method m a
      | _ => false
      end
  | _ => false
  end.

(** A table of results by subsystem: an entry of what
    [hamiltonian_results] returned, or a data frame. *)
Definition is_table (tr : list event) (v : value) : bool :=
  match v with
  | VItem r (VStr _) => method_result "hamiltonian_results" tr r
  | _ => method_result "to_dataframe" tr v
  end.

(** The subscripts by which a value is read out of a table. *)
Fixpoint table_indices (tr : list event) (v : value) : list string :=
  match v with
  | VItem b (VStr k) =>
      if is_table tr b then [k]
      else match table_indices tr b with
           | [] => []
           | l => l ++ [k]
           end
  | _ => []
  end.

Definition printed (tr : list event) : list value :=
  flat_map (fun ev => match fst ev with
                      | ACall (VBuiltin f) args _ =>
                          if String.eqb f "print" then args else []
                      | _ => []
                      end) tr.

(** The names of the subsystems of the composite systems. *)
Definition system_names (tr : list event) : list string :=
  flat_map (fun ev => match fst ev with
                      | ACall (VImported _ c) _ kws =>
                          if String.eqb c "CompositeSystem"
                          then flat_map (subsystem_name tr)
                                        (elements (keyword "subsystems" kws))
                          else []
                      | _ => []
                      end) tr.

(** Results are read by the names of subsystems. *)
Definition read_by_subsystem (tr : list event) : bool :=
  included (flat_map (table_indices tr) (printed tr)) (system_names tr).

End Usage.

Import Usage.

(** * The kernel on small programs *)

(** [dict(a=1, **d)] keeps insertion order and the last value of a key. *)
Example dict_keeps_order :
  dict_of_keywords
    [(Some "a", VInt 1); (None, VDict [(VStr "b", VInt 2); (VStr "a", VInt 3)])] []
  = Some [(VStr "a", VInt 3); (VStr "b", VInt 2)].
Proof. reflexivity. Qed.

Example percent_s_formats : percent_s "NAME:%s" "Si_11.45" = Some "NAME:Si_11.45".
Proof. reflexivity. Qed.

Example percent_s_needs_a_directive : percent_s "NAME" "Si_11.45" = None.
Proof. reflexivity. Qed.

(** A failure inside [try] is caught: the handler runs and the run goes
    on. *)
Example try_catches_a_failure :
  let r := demo [Try [Expr (Call (Name "open") [str "f"] [])]
                     [Assign (Name "x") (int 0)]
                     [];
                 Expr (Call (Name "print") [Name "x"] [])]
                (failing_at 0 true) in
  fst r = Ok tt /\
  trace r = [(ACall (VBuiltin "open") [VStr "f"] [], Failed);
             (ACall (VBuiltin "print") [VInt 0] [], Returned)].
Proof. split; reflexivity. Qed.

(** Without [try] the same failure ends the run. *)
Example a_failure_ends_the_run :
  let r := demo [Expr (Call (Name "open") [str "f"] []);
                 Expr (Call (Name "print") [str "done"] [])]
                (failing_at 0 true) in
  fst r = Exn (ExternalFailure 0) /\
  trace r = [(ACall (VBuiltin "open") [VStr "f"] [], Failed)] /\
  visited r = [("demo", [0])].
Proof. repeat split; reflexivity. Qed.

(** A conditional asks the world and takes one branch. *)
Example conditional_takes_one_branch :
  let src := [If (Call (Name "open") [] [])
                 [Assign (Name "x") (int 1)]
                 [Assign (Name "x") (int 2)]] in
  assoc_get "x" (env (snd (demo src (calm (fun _ => true))))) = Some (VInt 1) /\
  assoc_get "x" (env (snd (demo src (calm (fun _ => false))))) = Some (VInt 2) /\
  visited (demo src (calm (fun _ => false))) = [("demo", [0]); ("demo", [0; 1; 0])].
Proof. repeat split; reflexivity. Qed.

(** A loop over a list runs its body once per element. *)
Example for_runs_the_body_per_element :
  let r := demo [For "p" (List_ [str "a"; str "b"])
                     [Expr (Call (Name "print") [Name "p"] [])]]
                (calm (fun _ => true)) in
  fst r = Ok tt /\
  trace r = [(ACall (VBuiltin "print") [VStr "a"] [], Returned);
             (ACall (VBuiltin "print") [VStr "b"] [], Returned)].
Proof. split; reflexivity. Qed.

(** A loop that does not end runs out of fuel, whatever the fuel. *)
Example endless_loop_has_no_outcome :
  fst (demo [While true_ [Pass]] (calm (fun _ => true))) = OutOfFuel.
Proof. vm_compute. reflexivity. Qed.

(** A retry loop ends as soon as the world answers. *)
Example retry_loop :
  let w := {| fails := fun _ => false; truth := fun n => Nat.leb 5 n |} in
  let r := demo [While (UnaryOp Not (Call (Name "open") [] [])) [Pass]] w in
  fst r = Ok tt /\ length (trace r) = 6.
Proof. split; vm_compute; reflexivity. Qed.

(** An unbound name and a failed assertion are exceptions of the kernel. *)
Example unbound_name :
  fst (demo [Expr (Name "undefined")] (calm (fun _ => true)))
  = Exn (NameError "undefined").
Proof. reflexivity. Qed.

Example failed_assertion :
  fst (demo [Assert (Dict [])] (calm (fun _ => true))) = Exn AssertionError.
Proof. reflexivity. Qed.

(** A definition is outside the fragment the kernel runs. *)
Example definitions_are_not_run :
  fst (demo [FunctionDef "f" [] [Pass]] (calm (fun _ => true)))
  = Unsupported "def".
Proof. reflexivity. Qed.

(** * What the checks on a trace mean *)

(** [nondecreasing]: stages never go back. *)
Lemma nondecreasing_from (c : nat) (l : list stage) :
  nondecreasing c l = true -> forall s, In s l -> c <= rank s.
Proof.
  revert c. induction l as [|a l IH]; intros c H s Hin; [destruct Hin|].
  simpl in H. apply andb_prop in H. destruct H as [H1 H2].
  apply Nat.leb_le in H1. destruct Hin as [<- | Hin]; [exact H1|].
  specialize (IH _ H2 _ Hin). lia.
Qed.

Lemma nondecreasing_sorted (c : nat) (l : list stage) :
  nondecreasing c l = true ->
  forall i j a b, i < j -> nth_error l i = Some a -> nth_error l j = Some b ->
                  rank a <= rank b.
Proof.
  revert c. induction l as [|x l IH]; intros c H i j a b Hij Hi Hj.
  - destruct i; discriminate Hi.
  - simpl in H. apply andb_prop in H. destruct H as [_ H2].
    destruct j as [|j]; [lia|]. simpl in Hj. destruct i as [|i].
    + simpl in Hi. injection Hi as <-.
      apply (nondecreasing_from _ _ H2). apply (nth_error_In _ _ Hj).
    + simpl in Hi. apply (IH _ H2 i j); [lia | assumption | assumption].
Qed.

(** [sequential]: an interaction that is followed by another has been
    answered. *)
Lemma sequential_answered (tr : list event) :
  sequential tr = true ->
  forall i ev, S i < length tr -> nth_error tr i = Some ev -> returned ev = true.
Proof.
  unfold sequential. induction tr as [|x tr IH]; intros H i ev Hlen Hi.
  - simpl in Hlen. lia.
  - destruct tr as [|y tr]; [simpl in Hlen; lia|].
    change (removelast (x :: y :: tr)) with (x :: removelast (y :: tr)) in H.
    simpl forallb in H. apply andb_prop in H. destruct H as [H1 H2].
    destruct i as [|i].
    + simpl in Hi. injection Hi as <-. exact H1.
    + apply (IH H2 i ev); [simpl in *; lia | exact Hi].
Qed.

(** * Metatheory of the kernel *)

(** ** One induction for all relational facts about the interpreter

    Two runs of the interpreter on the same syntax, the second in a world
    [w'] and with [d] more units of fuel, are related by [R] as soon as [R]
    relates the primitive computations and is preserved by sequencing.
    When [tries] is false the statement covers the statements without
    [try] only. *)

Section Related.
Variables (w w' : world) (d : nat) (tries : bool).
Variable R : forall A : Type, M A -> M A -> Prop.
Hypothesis R_zero :
  forall A (m' : M A), (d = 0 -> m' = out_of_fuel) -> R A out_of_fuel m'.
Hypothesis R_ret : forall A (a : A), R A (ret a) (ret a).
Hypothesis R_raise : forall A e, R A (raise e) (raise e).
Hypothesis R_unsupported : forall A s, R A (unsupported s) (unsupported s).
Hypothesis R_get_var : forall x, R _ (get_var x) (get_var x).
Hypothesis R_set_var : forall x v, R _ (set_var x v) (set_var x v).
Hypothesis R_visit : forall l, R _ (visit l) (visit l).
Hypothesis R_interact : forall a, R _ (interact w a) (interact w' a).
Hypothesis R_ask : forall v, R _ (ask w v) (ask w' v).
Hypothesis R_bind : forall A B (m m' : M A) (k k' : A -> M B),
    R A m m' -> (forall a, R B (k a) (k' a)) -> R B (bind m k) (bind m' k').
Hypothesis R_catch : tries = true -> forall A (m m' h h' : M A),
    R A m m' -> R A h h' -> R A (catch m h) (catch m' h').
Hypothesis R_finally : tries = true -> forall A (m m' : M A) (f f' : M unit),
    R A m m' -> R unit f f' -> R A (finally m f) (finally m' f').

Ltac rel :=
  repeat first
    [ assumption
    | apply R_ret | apply R_raise | apply R_unsupported
    | apply R_get_var | apply R_set_var | apply R_visit
    | apply R_interact | apply R_ask
    | apply R_bind; [ | intros ]
    | match goal with
      | |- R _ (if ?c then _ else _) _ => destruct c
      | |- R _ (match ?v with _ => _ end) _ => destruct v
      | H : forall e, R _ (eval _ _ e) _ |- R _ (eval _ _ _) _ => apply H
      | H : forall e, R _ (eval_list _ _ e) _ |- R _ (eval_list _ _ _) _ =>
          apply H
      | H : forall e, R _ (eval_keywords _ _ e) _
        |- R _ (eval_keywords _ _ _) _ => apply H
      | H : forall e, R _ (eval_items _ _ e) _ |- R _ (eval_items _ _ _) _ =>
          apply H
      end ].

Lemma truthy_related v : R _ (truthy w v) (truthy w' v).
Proof. unfold truthy. rel. Qed.

Lemma get_attr_related v a : R _ (get_attr v a) (get_attr v a).
Proof. unfold get_attr. rel. Qed.

Lemma get_item_related v k : R _ (get_item v k) (get_item v k).
Proof. unfold get_item. rel. Qed.

Lemma negate_related v : R _ (negate v) (negate v).
Proof. unfold negate. rel. Qed.

Lemma binop_related op l r : R _ (binop op l r) (binop op l r).
Proof. unfold binop. rel. Qed.

Lemma call_related f args kws : R _ (call w f args kws) (call w' f args kws).
Proof. unfold call. rel. Qed.

Lemma bind_imports_related m names :
  R _ (bind_imports m names) (bind_imports m names).
Proof. induction names as [|[n a] r IH]; simpl; rel. Qed.

Ltac rel' :=
  repeat first
    [ apply truthy_related | apply get_attr_related | apply get_item_related
    | apply negate_related | apply binop_related | apply call_related
    | apply bind_imports_related
    | progress rel ].

Lemma eval_related f :
  (forall e, R _ (eval f w e) (eval (f + d) w' e)) /\
  (forall es, R _ (eval_list f w es) (eval_list (f + d) w' es)) /\
  (forall kws, R _ (eval_keywords f w kws) (eval_keywords (f + d) w' kws)) /\
  (forall items, R _ (eval_items f w items) (eval_items (f + d) w' items)).
Proof.
  induction f as [|f (IHe & IHl & IHk & IHi)].
  - repeat split; intros; simpl; apply R_zero; intros ->; reflexivity.
  - repeat split.
    + intros e. destruct e; simpl; rel'.
    + intros [|e es]; simpl; rel'.
    + intros [|[k e] kws]; simpl; rel'.
    + intros [|[k e] items]; simpl; rel'.
Qed.

Lemma assign_related f t v :
  R _ (assign f w t v) (assign (f + d) w' t v).
Proof.
  destruct (eval_related f) as (IHe & _).
  unfold assign. destruct t; rel'.
Qed.

Lemma covered_all l :
  tries || forallb no_try l = true -> forallb (covered tries) l = true.
Proof.
  intros H. apply forallb_forall. intros s Hin. unfold covered.
  destruct tries; [reflexivity|]. simpl in *.
  rewrite forallb_forall in H. apply H, Hin.
Qed.

Lemma covered_both a b :
  tries || forallb no_try a && forallb no_try b = true ->
  forallb (covered tries) a = true /\ forallb (covered tries) b = true.
Proof.
  intros H. split; apply covered_all; destruct tries; try reflexivity;
    simpl in *; apply andb_prop in H; tauto.
Qed.

Lemma exec_related f :
  (forall cid path s, covered tries s = true ->
      R _ (exec f w cid path s) (exec (f + d) w' cid path s)) /\
  (forall cid path i ss, forallb (covered tries) ss = true ->
      R _ (exec_block f w cid path i ss) (exec_block (f + d) w' cid path i ss)) /\
  (forall cid path x vs b, forallb (covered tries) b = true ->
      R _ (exec_for f w cid path x vs b) (exec_for (f + d) w' cid path x vs b)).
Proof.
  induction f as [|f (IHs & IHb & IHf)].
  - repeat split; intros; simpl; apply R_zero; intros ->; reflexivity.
  - destruct (eval_related f) as (IHe & _).
    repeat split.
    + intros cid path s Hs. destruct s; simpl; rel'.
      all: try apply assign_related.
      all: pose proof Hs as Hs'; unfold covered in Hs; simpl in Hs.
      * apply IHb. apply (covered_both _ _ Hs).
      * apply IHb. apply (covered_both _ _ Hs).
      * apply IHb. apply covered_all, Hs.
      * apply IHs, Hs'.
      * apply IHf. apply covered_all, Hs.
      * apply IHf. apply covered_all, Hs.
      * rewrite orb_false_r in Hs.
        assert (Hall : forall l, forallb (covered tries) l = true).
        { intros l. apply covered_all. rewrite Hs. reflexivity. }
        apply (R_finally Hs); [apply (R_catch Hs)|]; apply IHb, Hall.
    + intros cid path i [|s ss] Hss; simpl; rel'.
      * apply IHs. simpl in Hss. apply andb_prop in Hss. apply Hss.
      * apply IHb. simpl in Hss. apply andb_prop in Hss. apply Hss.
    + intros cid path x [|v vs] b Hb; simpl; rel'.
      * apply IHb, Hb.
      * apply IHf, Hb.
Qed.

Lemma run_cells_related f nb :
  forallb (fun c => forallb (covered tries) (Syntax.cell_source c)) nb = true ->
  R _ (run_cells f w nb) (run_cells (f + d) w' nb).
Proof.
  destruct (exec_related f) as (_ & IHb & _).
  induction nb as [|[id|id src] nb IH]; simpl; intros H.
  - apply R_ret.
  - apply IH, H.
  - apply andb_prop in H. destruct H as [H1 H2].
    apply R_bind; [apply IHb, H1 | intros; apply IH, H2].
Qed.
End Related.

(** ** Events are only added *)

Lemma grows_bind A B (m : M A) (k : A -> M B) :
  grows m -> (forall a, grows (k a)) -> grows (bind m k).
Proof.
  intros Hm Hk st. unfold bind. destruct (Hm st) as [n1 E1].
  destruct (m st) as [[a|e|s|] st1]; simpl in *; try (exists n1; exact E1).
  destruct (Hk a st1) as [n2 E2]. exists (n2 ++ n1).
  rewrite E2, E1. apply app_assoc.
Qed.

Lemma grows_catch A (m h : M A) : grows m -> grows h -> grows (catch m h).
Proof.
  intros Hm Hh st. unfold catch. destruct (Hm st) as [n1 E1].
  destruct (m st) as [[a|e|s|] st1]; simpl in *; try (exists n1; exact E1).
  destruct (Hh st1) as [n2 E2]. exists (n2 ++ n1).
  rewrite E2, E1. apply app_assoc.
Qed.

Lemma grows_finally A (m : M A) (f : M unit) :
  grows m -> grows f -> grows (finally m f).
Proof.
  intros Hm Hf st. unfold finally. destruct (Hm st) as [n1 E1].
  destruct (m st) as [[a|e|s|] st1]; simpl in *; try (exists n1; exact E1).
  all: destruct (Hf st1) as [n2 E2];
    destruct (f st1) as [[u|e'|s'|] st2]; simpl in *;
    exists (n2 ++ n1); rewrite E2, E1; apply app_assoc.
Qed.

Lemma grows_interact w a : grows (interact w a).
Proof.
  intros st. unfold interact. destruct (fails w _); simpl;
    eexists [_]; reflexivity.
Qed.

Lemma grows_ask w v : grows (ask w v).
Proof.
  intros st. unfold ask. destruct (fails w _); simpl;
    eexists [_]; reflexivity.
Qed.

Lemma grows_get_var x : grows (get_var x).
Proof.
  intros st. unfold get_var.
  destruct (assoc_get x (env st)); [|destruct (Syntax.mem x builtins)];
    exists []; reflexivity.
Qed.

Lemma run_cells_grows f w nb : grows (run_cells f w nb).
Proof.
  rewrite <- (Nat.add_0_r f).
  apply (run_cells_related w w 0 true (fun A _ m' => grows m')).
  - intros A m' H. rewrite (H eq_refl). intros st. exists []. reflexivity.
  - intros A a st. exists []. reflexivity.
  - intros A e st. exists []. reflexivity.
  - intros A s st. exists []. reflexivity.
  - apply grows_get_var.
  - intros x v st. exists []. reflexivity.
  - intros l st. exists []. reflexivity.
  - apply grows_interact.
  - apply grows_ask.
  - intros A B m m' k k'. apply grows_bind.
  - intros _ A m m' h h'. apply grows_catch.
  - intros _ A m m' g g'. apply grows_finally.
  - apply forallb_forall. intros c _. apply forallb_forall. reflexivity.
Qed.

(** ** A run in a failing world is a truncation of the run in the calm
    world with the same answers *)

Section Truncation.
Variables (w c : world).
Hypothesis same_truth : forall n, truth w n = truth c n.
Hypothesis c_calm : forall n, fails c n = false.

Lemma truncated_same A (m : M A) : grows m -> truncating w A m m.
Proof. intros G. split; [exact G | intros st; left; reflexivity]. Qed.

Lemma truncated_bind A B (m m' : M A) (k k' : A -> M B) :
  truncating w A m m' -> (forall a, truncating w B (k a) (k' a)) -> truncating w B (bind m k) (bind m' k').
Proof.
  intros [Gm Hm] Hk. split.
  { apply grows_bind; [exact Gm | intros a; apply Hk]. }
  intros st. unfold bind. destruct (Hm st) as [E | (a & rep & pre & new & F & O & E1 & E2)].
  - rewrite E. destruct (m' st) as [[x|e|s|] st1]; try (left; reflexivity).
    apply Hk.
  - right. destruct (m st) as [o st1]. simpl in O, E1. subst o.
    destruct (m' st) as [[x|e|s|] st1'] eqn:E'; simpl in E2.
    2-4: exists a, rep, pre, new; repeat split; assumption.
    destruct (proj1 (Hk x) st1') as [new' E3].
    exists a, rep, pre, (new' ++ new). repeat split; try assumption.
    rewrite E3, E2. apply app_assoc.
Qed.

Lemma truncated_interact a : truncating w nat (interact w a) (interact c a).
Proof.
  split; [apply grows_interact|]. intros st. unfold interact.
  rewrite c_calm. destruct (fails w (length (events st))) eqn:F.
  - right. exists a, Returned, (events st), []. repeat split; assumption.
  - left. reflexivity.
Qed.

Lemma truncated_ask v : truncating w bool (ask w v) (ask c v).
Proof.
  split; [apply grows_ask|]. intros st. unfold ask.
  rewrite c_calm, same_truth. destruct (fails w (length (events st))) eqn:F.
  - right. exists (ATruth v), (Answered (truth c (length (events st)))),
      (events st), []. repeat split; assumption.
  - left. reflexivity.
Qed.

Lemma run_cells_truncated f nb :
  nb_no_try nb = true -> truncated w (run_cells f w nb) (run_cells f c nb).
Proof.
  intros H.
  assert (HT : truncating w unit (run_cells f w nb) (run_cells (f + 0) c nb)).
  { apply (run_cells_related w c 0 false (truncating w)).
    - intros A m' E. rewrite (E eq_refl). apply truncated_same.
      intros st. exists []. reflexivity.
    - intros A a. apply truncated_same. intros st. exists []. reflexivity.
    - intros A e. apply truncated_same. intros st. exists []. reflexivity.
    - intros A s. apply truncated_same. intros st. exists []. reflexivity.
    - intros x. apply truncated_same, grows_get_var.
    - intros x v. apply truncated_same. intros st. exists []. reflexivity.
    - intros l. apply truncated_same. intros st. exists []. reflexivity.
    - apply truncated_interact.
    - apply truncated_ask.
    - apply truncated_bind.
    - discriminate.
    - discriminate.
    - exact H. }
  rewrite Nat.add_0_r in HT. apply HT.
Qed.
End Truncation.

(** ** More fuel changes nothing once the run has an outcome *)

Lemma stable_bind A B (m m' : M A) (k k' : A -> M B) :
  stable m m' -> (forall a, stable (k a) (k' a)) -> stable (bind m k) (bind m' k').
Proof.
  intros Hm Hk st. unfold bind. intros H.
  rewrite Hm.
  - destruct (m st) as [[a|e|s|] st1]; try reflexivity. apply Hk, H.
  - intros E. apply H. destruct (m st) as [[a|e|s|] st1]; try discriminate.
    reflexivity.
Qed.

Lemma stable_catch A (m m' h h' : M A) :
  stable m m' -> stable h h' -> stable (catch m h) (catch m' h').
Proof.
  intros Hm Hh st. unfold catch. intros H.
  rewrite Hm.
  - destruct (m st) as [[a|e|s|] st1]; try reflexivity. apply Hh, H.
  - intros E. apply H. destruct (m st) as [[a|e|s|] st1]; try discriminate.
    reflexivity.
Qed.

Lemma stable_finally A (m m' : M A) (f f' : M unit) :
  stable m m' -> stable f f' -> stable (finally m f) (finally m' f').
Proof.
  intros Hm Hf st. unfold finally. intros H.
  rewrite Hm.
  - destruct (m st) as [[a|e|s|] st1]; try reflexivity.
    all: rewrite Hf; [reflexivity|];
      intros E; apply H; destruct (f st1) as [[u|e'|s'|] st2];
      try discriminate; reflexivity.
  - intros E. apply H. destruct (m st) as [[a|e|s|] st1]; try discriminate.
    reflexivity.
Qed.

Lemma run_cells_stable f w nb : stable (run_cells f w nb) (run_cells (f + 1) w nb).
Proof.
  apply (run_cells_related w w 1 true (fun A => @stable A)).
  - intros A m' _ st H. exfalso. apply H. reflexivity.
  - intros A a st _. reflexivity.
  - intros A e st _. reflexivity.
  - intros A s st _. reflexivity.
  - intros x st _. reflexivity.
  - intros x v st _. reflexivity.
  - intros l st _. reflexivity.
  - intros a st _. reflexivity.
  - intros v st _. reflexivity.
  - apply stable_bind.
  - intros _. apply stable_catch.
  - intros _. apply stable_finally.
  - apply forallb_forall. intros c _. apply forallb_forall. reflexivity.
Qed.

(** Fuel is not observable: a run that has an outcome with [f] units has
    the same outcome with any larger amount. *)
Lemma run_fuel_irrelevant f w nb n :
  fst (run f w nb) <> OutOfFuel -> run (f + n) w nb = run f w nb.
Proof.
  intros H. induction n as [|n IH].
  - rewrite Nat.add_0_r. reflexivity.
  - replace (f + S n) with ((f + n) + 1) by lia.
    unfold run in *. rewrite run_cells_stable; [exact IH|].
    rewrite IH. exact H.
Qed.

(** ** Every run of a notebook without [try]

    is the run in the calm world with the same answers, or stops at the
    first failing interaction of that run. *)

Lemma truncate_spec (a : action) (rep : reply) (pre new : list event) :
  rev ((a, Failed) :: pre)
  = truncate (length pre) (rev (new ++ (a, rep) :: pre)).
Proof.
  unfold truncate. rewrite rev_app_distr. simpl rev.
  rewrite <- app_assoc. simpl app.
  rewrite <- (length_rev pre).
  rewrite firstn_app, firstn_all, Nat.sub_diag. simpl firstn.
  rewrite app_nil_r.
  rewrite nth_error_app2 by lia. rewrite Nat.sub_diag. reflexivity.
Qed.

Lemma run_truncated (f : nat) (w : world) (nb : notebook) :
  nb_no_try nb = true ->
  run f w nb = run f (calm (truth w)) nb \/
  exists k, k < length (trace (run f (calm (truth w)) nb)) /\
            fails w k = true /\
            fst (run f w nb) = Exn (ExternalFailure k) /\
            trace (run f w nb) = truncate k (trace (run f (calm (truth w)) nb)).
Proof.
  intros H.
  destruct (run_cells_truncated w (calm (truth w))
              (fun _ => eq_refl) (fun _ => eq_refl) f nb H init)
    as [E | (a & rep & pre & new & F & O & E1 & E2)].
  - left. exact E.
  - right. exists (length pre). unfold run, trace.
    rewrite E1, E2. repeat split.
    + rewrite length_rev, length_app. simpl. lia.
    + exact F.
    + exact O.
    + apply truncate_spec.
Qed.

(** Calm worlds that answer alike give the same run. *)
Lemma run_calm_ext (f : nat) (t t' : nat -> bool) (nb : notebook) :
  nb_no_try nb = true -> (forall n, t n = t' n) ->
  run f (calm t) nb = run f (calm t') nb.
Proof.
  intros H E.
  destruct (run_cells_truncated (calm t) (calm t') E (fun _ => eq_refl)
              f nb H init)
    as [E' | (a & rep & pre & new & F & _)].
  - exact E'.
  - discriminate F.
Qed.

(** *** The runs of the two notebooks *)

Lemma Elmer_calm (t : nat -> bool) (b : bool) :
  run fuel (calm t) Elmer.cells = calm_run Elmer.cells b.
Proof. destruct b; vm_compute; reflexivity. Qed.

Lemma FlipChip_calm (t : nat -> bool) :
  run fuel (calm t) FlipChip.cells = calm_run FlipChip.cells (t guard_question).
Proof.
  rewrite (run_calm_ext fuel t
             (fun n => if Nat.eqb n guard_question then t guard_question else t n)).
  - destruct (t guard_question); vm_compute; reflexivity.
  - reflexivity.
  - intros n. destruct (Nat.eqb n guard_question) eqn:E; [|reflexivity].
    apply Nat.eqb_eq in E. subst n. reflexivity.
Qed.

(** A run is complete, or stopped at a failure: with any amount of fuel
    from [fuel] on, in any world. *)
Lemma run_cases (nb : notebook) (n : nat) (w : world) :
  nb_no_try nb = true ->
  fst (run fuel (calm (truth w)) nb) = Ok tt ->
  let r := run (fuel + n) w nb in
  let r0 := run fuel (calm (truth w)) nb in
  r = r0 \/
  exists k, k < length (trace r0) /\ fails w k = true /\
            fst r = Exn (ExternalFailure k) /\
            trace r = truncate k (trace r0).
Proof.
  intros H Hok r r0.
  assert (E0 : run (fuel + n) (calm (truth w)) nb = r0).
  { apply run_fuel_irrelevant. unfold r0 in *. rewrite Hok. discriminate. }
  subst r. destruct (run_truncated (fuel + n) w nb H) as [E | (k & Hk)].
  - left. rewrite E. exact E0.
  - right. exists k. rewrite E0 in Hk. exact Hk.
Qed.

Lemma run_behaviour (nb : notebook) (n : nat) (w : world) :
  nb_no_try nb = true ->
  fst (run fuel (calm (truth w)) nb) = Ok tt ->
  In (fst (run (fuel + n) w nb), trace (run (fuel + n) w nb))
     (behaviours (run fuel (calm (truth w)) nb)).
Proof.
  intros H Hok. destruct (run_cases nb n w H Hok) as [E | (k & Hk & _ & O & T)].
  - left. rewrite E. reflexivity.
  - right. apply in_map_iff. exists k. split.
    + rewrite O, T. reflexivity.
    + apply in_seq. lia.
Qed.

Lemma Elmer_behaviour (n : nat) (w : world) :
  In (fst (run (fuel + n) w Elmer.cells), trace (run (fuel + n) w Elmer.cells))
     (behaviours (calm_run Elmer.cells true)).
Proof.
  rewrite <- (Elmer_calm (truth w) true).
  apply run_behaviour; [reflexivity|].
  rewrite (Elmer_calm (truth w) true). vm_compute. reflexivity.
Qed.

Lemma FlipChip_behaviour (n : nat) (w : world) :
  In (fst (run (fuel + n) w FlipChip.cells),
      trace (run (fuel + n) w FlipChip.cells))
     (behaviours (calm_run FlipChip.cells (truth w guard_question))).
Proof.
  rewrite <- (FlipChip_calm (truth w)).
  apply run_behaviour; [reflexivity|].
  rewrite (FlipChip_calm (truth w)).
  destruct (truth w guard_question); vm_compute; reflexivity.
Qed.

(** A property checked on every behaviour holds of every run. *)
Lemma checked_on_behaviours (P : list event -> bool)
  (l : list (outcome unit * list event)) (o : outcome unit) (tr : list event) :
  forallb (fun b => P (snd b)) l = true -> In (o, tr) l -> P tr = true.
Proof.
  intros H Hin. rewrite forallb_forall in H. apply (H (o, tr) Hin).
Qed.

(** A run that is complete is the calm run. *)
Lemma Elmer_complete (n : nat) (w : world) :
  (exists k, fst (run (fuel + n) w Elmer.cells) = Exn (ExternalFailure k)) \/
  run (fuel + n) w Elmer.cells = calm_run Elmer.cells true.
Proof.
  destruct (run_cases Elmer.cells n w eq_refl) as [E | (k & _ & _ & O & _)].
  - rewrite (Elmer_calm (truth w) true). vm_compute. reflexivity.
  - right. rewrite E. apply Elmer_calm.
  - left. exists k. exact O.
Qed.

Lemma FlipChip_complete (n : nat) (w : world) :
  (exists k, fst (run (fuel + n) w FlipChip.cells) = Exn (ExternalFailure k)) \/
  run (fuel + n) w FlipChip.cells
  = calm_run FlipChip.cells (truth w guard_question).
Proof.
  destruct (run_cases FlipChip.cells n w eq_refl) as [E | (k & _ & _ & O & _)].
  - rewrite (FlipChip_calm (truth w)).
    destruct (truth w guard_question); vm_compute; reflexivity.
  - right. rewrite E. apply FlipChip_calm.
  - left. exists k. exact O.
Qed.

Lemma Elmer_always (P : list event -> bool) :
  forallb (fun b => P (snd b)) (behaviours (calm_run Elmer.cells true)) = true ->
  forall n w, P (trace (run (fuel + n) w Elmer.cells)) = true.
Proof.
  intros H n w.
  exact (checked_on_behaviours P _ _ _ H (Elmer_behaviour n w)).
Qed.

Lemma FlipChip_always (P : list event -> bool) :
  (forall b, forallb (fun b => P (snd b))
                     (behaviours (calm_run FlipChip.cells b)) = true) ->
  forall n w, P (trace (run (fuel + n) w FlipChip.cells)) = true.
Proof.
  intros H n w.
  exact (checked_on_behaviours P _ _ _
           (H (truth w guard_question)) (FlipChip_behaviour n w)).
Qed.

Lemma Elmer_calm_any (n : nat) (t : nat -> bool) :
  run (fuel + n) (calm t) Elmer.cells = calm_run Elmer.cells true.
Proof.
  rewrite run_fuel_irrelevant; [apply Elmer_calm|].
  rewrite (Elmer_calm t true). vm_compute. discriminate.
Qed.

Lemma FlipChip_calm_any (n : nat) (t : nat -> bool) :
  run (fuel + n) (calm t) FlipChip.cells
  = calm_run FlipChip.cells (t guard_question).
Proof.
  rewrite run_fuel_irrelevant; [apply FlipChip_calm|].
  rewrite (FlipChip_calm t). destruct (t guard_question); vm_compute; discriminate.
Qed.

(** * The properties of the notebooks *)

Ltac by_computation := vm_compute; reflexivity.

(** C1.  Neither notebook defines a function or a class, by statement or
    by lambda; in every run, in any world and with any sufficient fuel,
    the callee of every call is provided by a package from outside the
    repository (qiskit_metal, pyEPR, the Python library); and a run that
    is not stopped by a failure reaches meshing, solving, simulation and
    diagonalization through such calls. *)
Theorem C1_computation_is_external :
  defines_nothing Elmer.cells = true /\
  defines_nothing FlipChip.cells = true /\
  (forall n w,
      all_calls_external (trace (run (fuel + n) w Elmer.cells)) = true) /\
  (forall n w,
      all_calls_external (trace (run (fuel + n) w FlipChip.cells)) = true) /\
  (forall n w,
      (exists k, fst (run (fuel + n) w Elmer.cells) = Exn (ExternalFailure k)) \/
      invoked ["render_design"; "add_mesh"; "run"; "hamiltonian_results"]
              (trace (run (fuel + n) w Elmer.cells)) = true) /\
  (forall n w,
      (exists k, fst (run (fuel + n) w FlipChip.cells) = Exn (ExternalFailure k)) \/
      invoked ["run"; "run_epr"]
              (trace (run (fuel + n) w FlipChip.cells)) = true).
Proof.
  split; [by_computation|]. split; [by_computation|].
  split; [|split; [|split]].
  - apply (Elmer_always all_calls_external). by_computation.
  - apply (FlipChip_always all_calls_external).
    intros []; by_computation.
  - intros n w. destruct (Elmer_complete n w) as [F | E]; [left; exact F|].
    right. rewrite E. by_computation.
  - intros n w. destruct (FlipChip_complete n w) as [F | E]; [left; exact F|].
    right. rewrite E. destruct (truth w guard_question); by_computation.
Qed.

(** C2, as stated, fails on the flip-chip notebook: it is not
    straight-line code. *)
Lemma C2_counterexample : ~ runs_every_statement_once FlipChip.cells.
Proof. intros [H _]. vm_compute in H. discriminate H. Qed.

(** C2, amended.  The ElmerFEM notebook is straight-line code, and a run
    of it that is not stopped by a failure starts each of its statements
    exactly once, in cell order.  The flip-chip notebook has no loop and
    one conditional, the material guard of cell 6eb99015; a run of it that
    is not stopped by a failure starts every statement other than the
    guarded [AddMaterial] call exactly once, in cell order, and the
    guarded call once when the material test is answered false and not at
    all when it is answered true. *)
Theorem C2_straight_line_but_for_the_guard :
  straight_line Elmer.cells = true /\
  conditionals FlipChip.cells = [FlipChip.material_guard] /\
  loops FlipChip.cells = [] /\
  tries FlipChip.cells = [] /\
  branching_exprs FlipChip.cells = [] /\
  distinct_locs (all_locs Elmer.cells) = true /\
  distinct_locs (all_locs FlipChip.cells) = true /\
  (forall n w,
      let r := run (fuel + n) w Elmer.cells in
      (exists k, fst r = Exn (ExternalFailure k)) \/
      (fst r = Ok tt /\ visited r = all_locs Elmer.cells)) /\
  (forall n w,
      let r := run (fuel + n) w FlipChip.cells in
      (exists k, fst r = Exn (ExternalFailure k)) \/
      (fst r = Ok tt /\
       visited r
       = filter (fun l => negb (truth w guard_question)
                          || negb (loc_eqb l add_material_loc))
                (all_locs FlipChip.cells))).
Proof.
  do 7 (split; [by_computation|]). split.
  - intros n w r. subst r.
    destruct (Elmer_complete n w) as [F | E]; [left; exact F|].
    right. rewrite E. split; by_computation.
  - intros n w r. subst r.
    destruct (FlipChip_complete n w) as [F | E]; [left; exact F|].
    right. rewrite E.
    destruct (truth w guard_question); split; by_computation.
Qed.

(** C3.  In every run of either notebook the stages come in order: no
    rendering, meshing or solving call before a component has been
    constructed, no analysis call before a solver run has returned, and
    the stage never goes back; a run that is not stopped by a failure goes
    through all three stages. *)
Theorem C3_pipeline_in_order :
  (forall n w,
      pipeline_in_order (trace (run (fuel + n) w Elmer.cells)) = true) /\
  (forall n w,
      pipeline_in_order (trace (run (fuel + n) w FlipChip.cells)) = true) /\
  (forall n w,
      (exists k, fst (run (fuel + n) w Elmer.cells) = Exn (ExternalFailure k)) \/
      all_stages_present (trace (run (fuel + n) w Elmer.cells)) = true) /\
  (forall n w,
      (exists k, fst (run (fuel + n) w FlipChip.cells) = Exn (ExternalFailure k)) \/
      all_stages_present (trace (run (fuel + n) w FlipChip.cells)) = true).
Proof.
  split; [|split; [|split]].
  - apply (Elmer_always pipeline_in_order). by_computation.
  - apply (FlipChip_always pipeline_in_order).
    intros []; by_computation.
  - intros n w. destruct (Elmer_complete n w) as [F | E]; [left; exact F|].
    right. rewrite E. by_computation.
  - intros n w. destruct (FlipChip_complete n w) as [F | E]; [left; exact F|].
    right. rewrite E. destruct (truth w guard_question); by_computation.
Qed.


(** C5, as stated, fails on the flip-chip notebook: it has a guard that
    checks the state of an external system before acting. *)
Lemma C5_counterexample : ~ handles_nothing FlipChip.cells.
Proof. intros (_ & _ & H). vm_compute in H. discriminate H. Qed.

(** C5, amended.  Neither notebook has a [try] or a loop; the ElmerFEM
    notebook has no guard, the flip-chip notebook has one, the material
    guard of cell 6eb99015.  Any failure of an external interaction
    propagates unhandled: a run either completes with every interaction
    answered, or ends with the exception of the first failing
    interaction [k], nothing being done after it, its trace being the
    trace of the failure-free run cut at [k]. *)
Theorem C5_failures_propagate :
  tries Elmer.cells = [] /\ tries FlipChip.cells = [] /\
  loops Elmer.cells = [] /\ loops FlipChip.cells = [] /\
  guards Elmer.cells = [] /\
  guards FlipChip.cells = [FlipChip.material_guard] /\
  (forall n w,
      let r := run (fuel + n) w Elmer.cells in
      (fst r = Ok tt /\ forallb returned (trace r) = true) \/
      (exists k, fails w k = true /\ fst r = Exn (ExternalFailure k) /\
                 trace r = truncate k (trace (calm_run Elmer.cells true)))) /\
  (forall n w,
      let r := run (fuel + n) w FlipChip.cells in
      (fst r = Ok tt /\ forallb returned (trace r) = true) \/
      (exists k, fails w k = true /\ fst r = Exn (ExternalFailure k) /\
                 trace r
                 = truncate k (trace (calm_run FlipChip.cells
                                               (truth w guard_question))))).
Proof.
  do 6 (split; [by_computation|]). split.
  - intros n w r. subst r.
    destruct (run_cases Elmer.cells n w eq_refl) as [E | (k & _ & F & O & T)].
    + rewrite (Elmer_calm (truth w) true). by_computation.
    + left. rewrite E, (Elmer_calm (truth w) true). split; by_computation.
    + right. exists k. rewrite (Elmer_calm (truth w) true) in T. auto.
  - intros n w r. subst r.
    destruct (run_cases FlipChip.cells n w eq_refl) as [E | (k & _ & F & O & T)].
    + rewrite (FlipChip_calm (truth w)).
      destruct (truth w guard_question); by_computation.
    + left. rewrite E, (FlipChip_calm (truth w)).
      destruct (truth w guard_question); split; by_computation.
    + right. exists k. rewrite (FlipChip_calm (truth w)) in T. auto.
Qed.

(** C6.  Neither notebook asserts, raises, or defines a class or function
    of its own, and the one test made (by the flip-chip notebook) is of
    what an external call answered, not of a value the notebook built.
    What a complete run leaves in the variables of the kernel is an
    external object, a string, or a dictionary that was handed to an
    external call. *)
Theorem C6_no_invariant_enforced :
  enforces_nothing Elmer.cells = true /\
  enforces_nothing FlipChip.cells = true /\
  tests Elmer.cells = [] /\
  tests FlipChip.cells
  = [UnaryOp Not (method (Name "defmanager") "DoesMaterialExist"
                         [Name "newMaterial_name"] [])] /\
  (forall n w,
      let r := run (fuel + n) w Elmer.cells in
      (exists k, fst r = Exn (ExternalFailure k)) \/
      (fst r = Ok tt /\ handed_over r = true)) /\
  (forall n w,
      let r := run (fuel + n) w FlipChip.cells in
      (exists k, fst r = Exn (ExternalFailure k)) \/
      (fst r = Ok tt /\ handed_over r = true)).
Proof.
  do 4 (split; [by_computation|]). split.
  - intros n w r. subst r.
    destruct (Elmer_complete n w) as [F | E]; [left; exact F|].
    right. rewrite E. split; by_computation.
  - intros n w r. subst r.
    destruct (FlipChip_complete n w) as [F | E]; [left; exact F|].
    right. rewrite E. destruct (truth w guard_question); split; by_computation.
Qed.


(** C8.  In every run of the flip-chip notebook, an [AddMaterial] call
    directly follows the truth test of what [DoesMaterialExist] returned
    for the same material, answered false; a chip material is stored only
    after the check, and it is the material checked, "Si_11.45".  In a run
    that is not stopped by a failure, interaction 31 is the check and 32
    its truth test, [AddMaterial] is called once if the answer is false
    and not at all if it is true, and in either case both chips are given
    the material "Si_11.45". *)
Theorem C8_material_added_only_if_missing :
  (forall n w,
      let tr := trace (run (fuel + n) w FlipChip.cells) in
      adds_only_missing tr = true /\
      stores_after_check false tr = true /\
      forallb (fun cv => value_eqb (snd cv) (VStr "Si_11.45"))
              (material_stores tr) = true /\
      forallb (value_eqb (VStr "Si_11.45")) (materials_checked tr) = true) /\
  (forall n w,
      let r := run (fuel + n) w FlipChip.cells in
      (exists k, fst r = Exn (ExternalFailure k)) \/
      (fst r = Ok tt /\
       nth_error (trace r) 31
       = Some (ACall (VAttr (VResult 30) "DoesMaterialExist")
                     [VStr "Si_11.45"] [], Returned) /\
       nth_error (trace r) guard_question
       = Some (ATruth (VResult 31), Answered (truth w guard_question)) /\
       count (is_method "AddMaterial") (trace r)
       = (if truth w guard_question then 0 else 1) /\
       material_stores (trace r)
       = [(VStr "C_chip", VStr "Si_11.45"); (VStr "Q_chip", VStr "Si_11.45")])).
Proof.
  split.
  - intros n w tr. subst tr.
    repeat split.
    + apply (FlipChip_always adds_only_missing). intros []; by_computation.
    + apply (FlipChip_always (stores_after_check false)).
      intros []; by_computation.
    + apply (FlipChip_always
               (fun tr => forallb (fun cv => value_eqb (snd cv) (VStr "Si_11.45"))
                                  (material_stores tr))).
      intros []; by_computation.
    + apply (FlipChip_always
               (fun tr => forallb (value_eqb (VStr "Si_11.45"))
                                  (materials_checked tr))).
      intros []; by_computation.
  - intros n w r. subst r.
    destruct (FlipChip_complete n w) as [F | E]; [left; exact F|].
    right. rewrite E.
    destruct (truth w guard_question); repeat split; by_computation.
Qed.

(** C9.  In every run of the ElmerFEM notebook, every [render_design]
    call opens pins of Q1 only, and the pins it opens are exactly the
    connection pads declared in the options Q1 was constructed with.  In
    a run that is not stopped by a failure the declared pads are readout,
    coupler1 and coupler2, and there are four such calls, three on the
    Gmsh renderer and one on the Elmer renderer, each opening coupler1,
    coupler2 and readout. *)
Theorem C9_opened_pins_are_declared_pads :
  (forall n w,
      pins_match_pads (trace (run (fuel + n) w Elmer.cells)) = true) /\
  (forall n w,
      let r := run (fuel + n) w Elmer.cells in
      (exists k, fst r = Exn (ExternalFailure k)) \/
      (declared_pads "Q1" (trace r) = Some ["readout"; "coupler1"; "coupler2"] /\
       let pins := Some [("Q1", "coupler1"); ("Q1", "coupler2"); ("Q1", "readout")] in
       let gmsh := Some ("qiskit_metal.renderers.renderer_gmsh.gmsh_renderer",
                         "QGmshRenderer") in
       let elmer := Some ("qiskit_metal.renderers.renderer_elmer.elmer_renderer",
                          "QElmerRenderer") in
       render_calls (trace r)
       = [(gmsh, pins); (gmsh, pins); (gmsh, pins); (elmer, pins)])).
Proof.
  split.
  - apply (Elmer_always pins_match_pads). by_computation.
  - intros n w r. subst r.
    destruct (Elmer_complete n w) as [F | E]; [left; exact F|].
    right. rewrite E. split; by_computation.
Qed.

(** C10 does not hold of the flip-chip notebook.  When no interaction
    fails, the ElmerFEM notebook ends with no handle open, but the
    flip-chip notebook ends with the window of the Metal GUI, opened by
    interaction 11 ([MetalGUI(design)]), still open: it releases the ANSYS
    handles and closes the simulation, and never closes the GUI. *)
Theorem C10_flipchip_leaves_gui_open :
  forall n t,
    open_handles (trace (run (fuel + n) (calm t) Elmer.cells)) = [] /\
    nth_error (trace (run (fuel + n) (calm t) FlipChip.cells)) 11
    = Some (ACall (VImported "qiskit_metal" "MetalGUI") [VResult 9] [], Returned) /\
    open_handles (trace (run (fuel + n) (calm t) FlipChip.cells))
    = [VAttr (VResult 11) "main_window"].
Proof.
  intros n t. rewrite Elmer_calm_any, FlipChip_calm_any.
  destruct (t guard_question); repeat split; by_computation.
Qed.

(** * Further properties of the notebooks *)

(** A property of outcome and trace checked on every behaviour holds of
    every run. *)
Lemma checked_with_outcome (P : outcome unit -> list event -> bool)
  (l : list (outcome unit * list event)) (o : outcome unit) (tr : list event) :
  forallb (fun b => P (fst b) (snd b)) l = true -> In (o, tr) l -> P o tr = true.
Proof.
  intros H Hin. rewrite forallb_forall in H. apply (H (o, tr) Hin).
Qed.

(** A notebook without [try] whose run in a calm world does not depend on
    the answers: in any world it is stopped by a failure or is that run. *)
Lemma variant_cases (nb : notebook) (r0 : outcome unit * state)
  (n : nat) (w : world) :
  nb_no_try nb = true ->
  (forall t, run fuel (calm t) nb = r0) ->
  fst r0 <> OutOfFuel ->
  (exists k, fst (run (fuel + n) w nb) = Exn (ExternalFailure k)) \/
  run (fuel + n) w nb = r0.
Proof.
  intros H Hcalm Hne.
  destruct (run_truncated (fuel + n) w nb H) as [E | (k & _ & _ & O & _)].
  - right. rewrite E. rewrite run_fuel_irrelevant; [apply Hcalm|].
    rewrite Hcalm. exact Hne.
  - left. exists k. exact O.
Qed.

(** X1.  In no run of either notebook is a handle used after it was
    closed or released: nothing is called on it or on anything reached
    from it, it is not passed on, and it is not closed twice.  A run that
    is not stopped by a failure closes three handles in the ElmerFEM
    notebook and five in the flip-chip notebook. *)
Theorem X1_no_use_after_close :
  (forall n w,
      never_used_after_close (trace (run (fuel + n) w Elmer.cells)) = true) /\
  (forall n w,
      never_used_after_close (trace (run (fuel + n) w FlipChip.cells)) = true) /\
  (forall n w,
      let r := run (fuel + n) w Elmer.cells in
      (exists k, fst r = Exn (ExternalFailure k)) \/
      closings (trace r)
      = [VResult 14; VResult 31; VAttr (VResult 9) "main_window"]) /\
  (forall n w,
      let r := run (fuel + n) w FlipChip.cells in
      (exists k, fst r = Exn (ExternalFailure k)) \/
      length (closings (trace r)) = 5).
Proof.
  split; [|split; [|split]].
  - apply (Elmer_always never_used_after_close). by_computation.
  - apply (FlipChip_always never_used_after_close). intros []; by_computation.
  - intros n w r. subst r.
    destruct (Elmer_complete n w) as [F | E]; [left; exact F|].
    right. rewrite E. by_computation.
  - intros n w r. subst r.
    destruct (FlipChip_complete n w) as [F | E]; [left; exact F|].
    right. rewrite E. destruct (truth w guard_question); by_computation.
Qed.

(** X2.  In every run of the ElmerFEM notebook the calls on each renderer
    come in order: nothing is meshed or shown before the design was
    rendered; a mesh is exported only when the latest rendering has been
    meshed; the solver is run only after the mesh was exported and a
    solution set-up of the same kind was added; results are displayed and
    saved only after the solver has returned.  In a run that is not
    stopped by a failure the calls are the ones listed. *)
Theorem X2_renderer_calls_in_order :
  (forall n w,
      renderers_in_order (trace (run (fuel + n) w Elmer.cells)) = true) /\
  (forall n w,
      let r := run (fuel + n) w Elmer.cells in
      (exists k, fst r = Exn (ExternalFailure k)) \/
      (renderers (trace r) = [VResult 14; VResult 31] /\
       methods_on (trace r) (VResult 14)
       = ["render_design"; "launch_gui"; "add_mesh"; "launch_gui";
          "render_design"; "add_mesh"; "launch_gui"; "render_design";
          "launch_gui"; "export_mesh"; "close"] /\
       methods_on (trace r) (VResult 31)
       = ["render_design"; "launch_gmsh_gui"; "export_mesh";
          "add_solution_setup"; "run"; "display_post_processing_data";
          "save_capacitance_matrix"; "close"])).
Proof.
  split.
  - apply (Elmer_always renderers_in_order). by_computation.
  - intros n w r. subst r.
    destruct (Elmer_complete n w) as [F | E]; [left; exact F|].
    right. rewrite E. repeat split; by_computation.
Qed.

(** X3.  In every run of the ElmerFEM notebook, whenever a renderer
    generates a mesh, the minimum and maximum mesh sizes of its options
    are both left at their defaults or both set, in the same unit, the
    minimum below the maximum.  In a run that is not stopped by a failure
    the sizes in force at the four mesh generations are: the defaults,
    5um to 20um, 5um to 50um on the Gmsh renderer, and 5um to 50um on the
    Elmer renderer. *)
Theorem X3_mesh_sizes_in_order :
  (forall n w,
      sizes_in_order (trace (run (fuel + n) w Elmer.cells)) = true) /\
  (forall n w,
      let r := run (fuel + n) w Elmer.cells in
      (exists k, fst r = Exn (ExternalFailure k)) \/
      sizes_at_meshing (trace r)
      = [("QGmshRenderer", None, None);
         ("QGmshRenderer", Some (VStr "5um"), Some (VStr "20um"));
         ("QGmshRenderer", Some (VStr "5um"), Some (VStr "50um"));
         ("QElmerRenderer", Some (VStr "5um"), Some (VStr "50um"))]).
Proof.
  split.
  - apply (Elmer_always sizes_in_order). by_computation.
  - intros n w r. subst r.
    destruct (Elmer_complete n w) as [F | E]; [left; exact F|].
    right. rewrite E. by_computation.
Qed.

(** X4.  In every run of the ElmerFEM notebook the LOM objects fit
    together.  The junction dictionaries of a cell have the same keys, and
    its [node_rename] sends the connector pad [Q1_<pad>_connector_pad] of
    each connection pad declared for Q1, and nothing else, to the name of
    the pad.  A composite system is made of Subsystem and Cell objects
    constructed before; the subsystems have distinct names and distinct
    nodes; every node of a subsystem is a node of one of the cells; the
    nodes to keep are nodes of subsystems.  A run that is not stopped by a
    failure builds one cell, four subsystems and one composite system. *)
Theorem X4_lom_objects_fit :
  (forall n w,
      lom_consistent (trace (run (fuel + n) w Elmer.cells)) = true) /\
  (forall n w,
      let r := run (fuel + n) w Elmer.cells in
      (exists k, fst r = Exn (ExternalFailure k)) \/
      (count (is_function "Cell") (trace r) = 1 /\
       count (is_function "Subsystem") (trace r) = 4 /\
       count (is_function "CompositeSystem") (trace r) = 1)).
Proof.
  split.
  - apply (Elmer_always lom_consistent). by_computation.
  - intros n w r. subst r.
    destruct (Elmer_complete n w) as [F | E]; [left; exact F|].
    right. rewrite E. repeat split; by_computation.
Qed.

(** X5.  In every run of the ElmerFEM notebook, the Hilbert space given
    to [hamiltonian_results], and the one [hamiltonian] is called on, is
    the space [add_interaction] returned for the same composite system,
    after [create_hilbertspace] returned on it: the variable
    [hilbertspace] is rebound, and it is the space with interactions that
    is diagonalized. *)
Theorem X5_space_with_interactions :
  (forall n w,
      interacting_space (trace (run (fuel + n) w Elmer.cells)) = true) /\
  (forall n w,
      let r := run (fuel + n) w Elmer.cells in
      (exists k, fst r = Exn (ExternalFailure k)) \/
      (count (is_method "hamiltonian_results") (trace r) = 1 /\
       count (is_method "hamiltonian") (trace r) = 1 /\
       count (is_method "add_interaction") (trace r) = 1)).
Proof.
  split.
  - apply (Elmer_always interacting_space). by_computation.
  - intros n w r. subst r.
    destruct (Elmer_complete n w) as [F | E]; [left; exact F|].
    right. rewrite E. repeat split; by_computation.
Qed.

(** X6.  In every run of either notebook, after a component has been
    constructed the Metal GUI is rebuilt before another component is
    constructed and before anything is rendered or solved.  In a run that
    is not stopped by a failure the GUI is rebuilt and autoscaled once per
    component. *)
Theorem X6_gui_rebuilt_after_each_component :
  (forall n w,
      let tr := trace (run (fuel + n) w Elmer.cells) in
      gui_in_sync tr false tr = true) /\
  (forall n w,
      let tr := trace (run (fuel + n) w FlipChip.cells) in
      gui_in_sync tr false tr = true) /\
  (forall n w,
      let r := run (fuel + n) w Elmer.cells in
      (exists k, fst r = Exn (ExternalFailure k)) \/
      (components (trace r) = ["Q1"] /\
       count (is_method "rebuild") (trace r) = 1 /\
       count (is_method "autoscale") (trace r) = 1)) /\
  (forall n w,
      let r := run (fuel + n) w FlipChip.cells in
      (exists k, fst r = Exn (ExternalFailure k)) \/
      (components (trace r) = ["Q1"; "R1"] /\
       count (is_method "rebuild") (trace r) = 2 /\
       count (is_method "autoscale") (trace r) = 2)).
Proof.
  split; [|split; [|split]].
  - apply (Elmer_always (fun tr => gui_in_sync tr false tr)). by_computation.
  - apply (FlipChip_always (fun tr => gui_in_sync tr false tr)).
    intros []; by_computation.
  - intros n w r. subst r.
    destruct (Elmer_complete n w) as [F | E]; [left; exact F|].
    right. rewrite E. repeat split; by_computation.
  - intros n w r. subst r.
    destruct (FlipChip_complete n w) as [F | E]; [left; exact F|].
    right. rewrite E. destruct (truth w guard_question); repeat split; by_computation.
Qed.


(** X8.  In every run of the flip-chip notebook, the solver run names
    exactly the components constructed before it, in order; the number of
    modes set for the simulation is the number of those components; the
    junction names set for the EPR analysis name one of them; and the bulk
    dielectrics given to the EPR analysis are the chips that were given a
    material.  In a run that is not stopped by a failure the components
    are Q1 and R1. *)
Theorem X8_simulation_set_up_matches_design :
  (forall n w,
      let tr := trace (run (fuel + n) w FlipChip.cells) in
      run_matches_design tr = true /\ dielectrics_are_chips tr = true) /\
  (forall n w,
      let r := run (fuel + n) w FlipChip.cells in
      (exists k, fst r = Exn (ExternalFailure k)) \/
      (components (trace r) = ["Q1"; "R1"] /\
       last_attr "n_modes" (trace r) = Some (VInt 2) /\
       last_attr "dielectrics_bulk" (trace r)
       = Some (VList [VStr "Q_chip"; VStr "C_chip"]) /\
       count (is_method "run") (trace r) = 1)).
Proof.
  split.
  - intros n w tr. subst tr. split.
    + apply (FlipChip_always run_matches_design). intros []; by_computation.
    + apply (FlipChip_always dielectrics_are_chips). intros []; by_computation.
  - intros n w r. subst r.
    destruct (FlipChip_complete n w) as [F | E]; [left; exact F|].
    right. rewrite E. destruct (truth w guard_question); repeat split; by_computation.
Qed.

(** X9.  In every run of the flip-chip notebook the components are
    stacked: all are given the same [pos_x] and [pos_y], and the mappings
    unpacked into their options were built with different [chip]s.  In a
    run that is not stopped by a failure, Q1 is at (0.0 mm, 0.0 mm) on
    Q_chip and R1 at (0.0 mm, 0.0 mm) on C_chip. *)
Theorem X9_components_stacked_on_two_chips :
  (forall n w,
      stacked (placements (trace (run (fuel + n) w FlipChip.cells))) = true) /\
  (forall n w,
      let r := run (fuel + n) w FlipChip.cells in
      (exists k, fst r = Exn (ExternalFailure k)) \/
      placements (trace r)
      = [("Q1", Some (VStr "0.0 mm"), Some (VStr "0.0 mm"), [Some (VStr "Q_chip")]);
         ("R1", Some (VStr "0.0 mm"), Some (VStr "0.0 mm"), [Some (VStr "C_chip")])]).
Proof.
  split.
  - apply (FlipChip_always (fun tr => stacked (placements tr))).
    intros []; by_computation.
  - intros n w r. subst r.
    destruct (FlipChip_complete n w) as [F | E]; [left; exact F|].
    right. rewrite E. destruct (truth w guard_question); by_computation.
Qed.

(** X10.  The material part of the flip-chip notebook can be skipped.
    Without its three cells, in any world the run is stopped by a failure
    or completes: the pipeline is in order, goes through its three stages,
    imports nothing of pyEPR and stores no material.  Without the
    scripting cell alone (the material being added by hand), the run is
    stopped by a failure or completes and gives both chips the material
    "Si_11.45", with no call to the ANSYS definition manager. *)
Theorem X10_material_part_can_be_skipped :
  (forall n w,
      let r := run (fuel + n) w
                   (without [material_names; material_script; material_assignment]
                            FlipChip.cells) in
      (exists k, fst r = Exn (ExternalFailure k)) \/
      (fst r = Ok tt /\
       pipeline_in_order (trace r) = true /\
       all_stages_present (trace r) = true /\
       material_stores (trace r) = [] /\
       existsb (fun ev => match fst ev with
                          | AImport m _ => String.eqb m "pyEPR"
                          | _ => false
                          end) (trace r) = false)) /\
  (forall n w,
      let r := run (fuel + n) w (without [material_script] FlipChip.cells) in
      (exists k, fst r = Exn (ExternalFailure k)) \/
      (fst r = Ok tt /\
       material_stores (trace r)
       = [(VStr "C_chip", VStr "Si_11.45"); (VStr "Q_chip", VStr "Si_11.45")] /\
       materials_checked (trace r) = [] /\
       count (is_method "AddMaterial") (trace r) = 0)).
Proof.
  split.
  - intros n w r. subst r.
    destruct (variant_cases
                (without [material_names; material_script; material_assignment]
                         FlipChip.cells)
                (run fuel (calm (fun _ => true))
                     (without [material_names; material_script; material_assignment]
                              FlipChip.cells))
                n w eq_refl) as [F | E].
    + intros t. by_computation.
    + vm_compute. discriminate.
    + left. exact F.
    + right. rewrite E. repeat split; by_computation.
  - intros n w r. subst r.
    destruct (variant_cases
                (without [material_script] FlipChip.cells)
                (run fuel (calm (fun _ => true))
                     (without [material_script] FlipChip.cells))
                n w eq_refl) as [F | E].
    + intros t. by_computation.
    + vm_compute. discriminate.
    + left. exact F.
    + right. rewrite E. repeat split; by_computation.
Qed.

(** X11.  The scripting cell of the flip-chip notebook needs the cell
    that names the material.  Without that cell, a run that is not
    stopped by a failure before ends with [NameError] for
    [newMaterial_name] at the material guard, statement 4 of cell
    6eb99015, having made 31 interactions: the ANSYS handles opened by
    [ProjectInfo()] two statements earlier are never released. *)
Theorem X11_unnamed_material_is_a_name_error :
  forall n w,
    let r := run (fuel + n) w (without [material_names] FlipChip.cells) in
    (exists k, fst r = Exn (ExternalFailure k)) \/
    (fst r = Exn (NameError "newMaterial_name") /\
     hd_error (executed (snd r)) = Some ("6eb99015", [4]) /\
     length (trace r) = 31 /\
     holds (ansys_handles 29) (trace r) = true /\
     count (is_method "release") (trace r) = 0).
Proof.
  intros n w r. subst r.
  destruct (variant_cases
              (without [material_names] FlipChip.cells)
              (run fuel (calm (fun _ => true))
                   (without [material_names] FlipChip.cells))
              n w eq_refl) as [F | E].
  - intros t. by_computation.
  - vm_compute. discriminate.
  - left. exact F.
  - right. rewrite E. repeat split; by_computation.
Qed.

(** X12.  The flip-chip notebook releases the ANSYS handles only on the
    way through: a run stopped by a failure at an interaction from 30 to
    33 (getting the definition manager, checking the material, testing
    the answer, adding the material or releasing the project) ends with
    the project, desktop and application handles of ANSYS still open. *)
Theorem X12_failure_leaves_ansys_handles_open :
  forall n w k,
    fst (run (fuel + n) w FlipChip.cells) = Exn (ExternalFailure k) ->
    30 <= k -> k <= 33 ->
    holds (ansys_handles 29) (trace (run (fuel + n) w FlipChip.cells)) = true.
Proof.
  intros n w k Hk Hlo Hhi.
  assert (Hall : forall b,
             forallb (fun x => held_at_failure 30 33 (ansys_handles 29)
                                               (fst x) (snd x))
                     (behaviours (calm_run FlipChip.cells b)) = true).
  { intros []; by_computation. }
  pose proof (checked_with_outcome
                (held_at_failure 30 33 (ansys_handles 29)) _ _ _
                (Hall (truth w guard_question)) (FlipChip_behaviour n w)) as H.
  rewrite Hk in H. unfold held_at_failure in H.
  apply Nat.leb_le in Hlo. apply Nat.leb_le in Hhi.
  rewrite Hlo, Hhi in H. exact H.
Qed.

Lemma X12_witness :
  fst (run (fuel + 0) (failing_at 31 true) FlipChip.cells)
  = Exn (ExternalFailure 31) /\
  holds (ansys_handles 29)
        (trace (run (fuel + 0) (failing_at 31 true) FlipChip.cells)) = true.
Proof.
  split.
  - vm_compute. reflexivity.
  - apply (X12_failure_leaves_ansys_handles_open 0 (failing_at 31 true) 31);
      [vm_compute; reflexivity | lia | lia].
Defined.

(** X13.  The LOM analysis of the ElmerFEM notebook uses no variable of
    the rendering and simulation cells.  Without sections 2 and 3, in any
    world the run is stopped by a failure or completes, and makes the
    analysis calls of the whole notebook, in the same order, but for the
    two the Elmer renderer made itself. *)
Theorem X13_analysis_needs_no_renderer_variable :
  forall n w,
    let r := run (fuel + n) w (without rendering_cells Elmer.cells) in
    (exists k, fst r = Exn (ExternalFailure k)) \/
    (fst r = Ok tt /\
     renderers (trace r) = [] /\
     map callee_name (analysis_calls (trace (calm_run Elmer.cells true)))
     = ["display_post_processing_data"; "save_capacitance_matrix"]
         ++ map callee_name (analysis_calls (trace r)) /\
     lom_consistent (trace r) = true /\
     interacting_space (trace r) = true).
Proof.
  intros n w r. subst r.
  destruct (variant_cases
              (without rendering_cells Elmer.cells)
              (run fuel (calm (fun _ => true))
                   (without rendering_cells Elmer.cells))
              n w eq_refl) as [F | E].
  - intros t. by_computation.
  - vm_compute. discriminate.
  - left. exact F.
  - right. rewrite E. repeat split; by_computation.
Qed.

(** *** The material, whatever it is called *)

Lemma append_empty (s : string) : String.append s EmptyString = s.
Proof. induction s as [|c s IH]; simpl; [reflexivity | rewrite IH; reflexivity]. Qed.

Lemma with_material_calm (name eps tan : string) (t : nat -> bool) :
  run fuel (calm t) (with_material name eps tan)
  = run fuel (calm (fun _ => t guard_question)) (with_material name eps tan).
Proof.
  rewrite (run_calm_ext fuel t
             (fun n => if Nat.eqb n guard_question then t guard_question else t n)).
  - destruct (t guard_question); vm_compute; reflexivity.
  - vm_compute. reflexivity.
  - intros n. destruct (Nat.eqb n guard_question) eqn:E; [|reflexivity].
    apply Nat.eqb_eq in E. subst n. reflexivity.
Qed.

Lemma with_material_added (name eps tan : string) :
  added_materials
    (trace (run fuel (calm (fun _ => false)) (with_material name eps tan)))
  = [material_record (String.append name EmptyString)
                     (String.append eps EmptyString)
                     (String.append tan EmptyString)].
Proof. vm_compute. reflexivity. Qed.

(** X14.  The material of the flip-chip notebook can be given any name,
    permittivity and loss tangent in the cell that names it (the notebook
    has "Si_11.45", "11.45" and "1e-7").  Whatever they are, in any world
    the run is stopped by a failure or completes; then the definition
    manager was asked once, about that name; if it answered that the
    material is missing, [AddMaterial] was given one record, with
    "NAME:<name>", the permittivity and the loss tangent as they were
    written, and otherwise none; and both chips were given that name.  The
    record of every run of the notebook as it is, is well formed: a name,
    then keys ending in ":=" each followed by a value, and records. *)
Theorem X14_material_record_follows_the_names :
  with_material "Si_11.45" "11.45" "1e-7" = FlipChip.cells /\
  (forall name eps tan n w,
      let r := run (fuel + n) w (with_material name eps tan) in
      (exists k, fst r = Exn (ExternalFailure k)) \/
      (fst r = Ok tt /\
       materials_checked (trace r) = [VStr name] /\
       added_materials (trace r)
       = (if truth w guard_question then []
          else [material_record name eps tan]) /\
       material_stores (trace r)
       = [(VStr "C_chip", VStr name); (VStr "Q_chip", VStr name)])) /\
  (forall n w,
      forallb well_formed_record
              (added_materials (trace (run (fuel + n) w FlipChip.cells)))
      = true).
Proof.
  split; [reflexivity|split].
  - intros name eps tan n w r. subst r.
    assert (Hok : fst (run fuel (calm (truth w)) (with_material name eps tan))
                  = Ok tt).
    { rewrite with_material_calm.
      destruct (truth w guard_question); vm_compute; reflexivity. }
    assert (Hno : nb_no_try (with_material name eps tan) = true).
    { vm_compute. reflexivity. }
    destruct (run_cases (with_material name eps tan) n w Hno Hok)
      as [E | (k & _ & _ & O & _)]; [|left; exists k; exact O].
    right. rewrite E. rewrite with_material_calm.
    destruct (truth w guard_question).
    + repeat split; vm_compute; reflexivity.
    + split; [vm_compute; reflexivity|].
      split; [vm_compute; reflexivity|].
      split; [|vm_compute; reflexivity].
      rewrite with_material_added. rewrite !append_empty. reflexivity.
  - apply (FlipChip_always (fun tr => forallb well_formed_record (added_materials tr))).
    intros []; by_computation.
Qed.

(** X15.  In every run of the ElmerFEM notebook the resonator subsystems
    are given different dressed frequencies, the same impedance and the
    same phase velocity, a multiple of the speed of light imported from
    [scipy.constants]: each is given the [q_opts] bound just before it.
    In a run that is not stopped by a failure they are coup1_sys at 7.4
    GHz, coup2_sys at 7.2 GHz and readout_sys at 7 GHz, at 50 Ohm. *)
Theorem X15_resonators_get_their_own_options :
  (forall n w,
      resonators_differ (trace (run (fuel + n) w Elmer.cells)) = true) /\
  (forall n w,
      let r := run (fuel + n) w Elmer.cells in
      (exists k, fst r = Exn (ExternalFailure k)) \/
      map (fun x => (fst (fst (fst x)), snd (fst (fst x)), snd (fst x)))
          (resonators (trace r))
      = [(Some (VStr "coup1_sys"), Some 7400%Z, Some (VInt 50));
         (Some (VStr "coup2_sys"), Some 7200%Z, Some (VInt 50));
         (Some (VStr "readout_sys"), Some 7000%Z, Some (VInt 50))]).
Proof.
  split.
  - apply (Elmer_always resonators_differ). by_computation.
  - intros n w r. subst r.
    destruct (Elmer_complete n w) as [F | E]; [left; exact F|].
    right. rewrite E. by_computation.
Qed.

(** X16.  In every run of the ElmerFEM notebook, the results that are
    printed are read by names of subsystems of the composite system: every
    subscript applied to an entry of what [hamiltonian_results] returned,
    or to a data frame, is the [name] given to one of its subsystems.  In
    a run that is not stopped by a failure the subscripts are those
    listed, of transmon1_sys and readout_sys. *)
Theorem X16_results_read_by_subsystem_name :
  (forall n w,
      read_by_subsystem (trace (run (fuel + n) w Elmer.cells)) = true) /\
  (forall n w,
      let r := run (fuel + n) w Elmer.cells in
      (exists k, fst r = Exn (ExternalFailure k)) \/
      (system_names (trace r)
       = ["transmon1_sys"; "coup1_sys"; "coup2_sys"; "readout_sys"] /\
       flat_map (table_indices (trace r)) (printed (trace r))
       = ["transmon1_sys"; "transmon1_sys"; "transmon1_sys";
          "readout_sys"; "transmon1_sys"])).
Proof.
  split.
  - apply (Elmer_always read_by_subsystem). by_computation.
  - intros n w r. subst r.
    destruct (Elmer_complete n w) as [F | E]; [left; exact F|].
    right. rewrite E. split; by_computation.
Qed.
